(** * usbxbm device firmware: session protocol, frame receiver and display
      capability, embedded from [main.c], [display.h] and [nokia5110.c],
      with the [st7789.c] and [ssd1306.c] display drivers. *)

From Stdlib Require Import ZArith List Lia Bool String Ascii.
Import ListNotations.
Open Scope Z_scope.

(** ** Fixed-width integers and C strings *)

(** Value kept by a [uint8_t] / [uint16_t] store. *)
Definition u8 (x : Z) : Z := x mod 256.
Definition u16 (x : Z) : Z := x mod 65536.

(** The characters of a C string literal as byte values, without terminator. *)
Definition c_chars (s : string) : list Z :=
  map (fun c => Z.of_N (N_of_ascii c)) (list_ascii_of_string s).

(** [sizeof] of an object given by its bytes. *)
Definition sizeof (object : list Z) : Z := Z.of_nat (List.length object).

(** ** display.h *)
Module Display.

(** The anonymous [properties] struct of [display_t]. *)
Record properties_t := {
  res_x : Z;            (* uint16_t *)
  res_y : Z;            (* uint16_t *)
  color_bits : Z;       (* uint8_t *)
  identifier : string   (* initialiser of char identifier[20] *)
}.

(** [display_t]: four callbacks acting on the hardware [HW] they drive, and
    the properties. *)
Record display_t (HW : Type) := {
  init : HW -> HW;
  frame_start : HW -> HW;
  send_byte : Z -> HW -> HW;
  frame_done : HW -> HW;
  properties : properties_t
}.
Arguments init {HW}.
Arguments frame_start {HW}.
Arguments send_byte {HW}.
Arguments frame_done {HW}.
Arguments properties {HW}.

(** One call through a function pointer of [display]. *)
Inductive display_call :=
| CallInit
| CallFrameStart
| CallSendByte (b : Z)
| CallFrameDone.

Definition exec_call {HW} (d : display_t HW) (c : display_call) (hw : HW) : HW :=
  match c with
  | CallInit => init d hw
  | CallFrameStart => frame_start d hw
  | CallSendByte b => send_byte d b hw
  | CallFrameDone => frame_done d hw
  end.

(** The calls of a trace, applied in order. *)
Definition exec_calls {HW} (d : display_t HW) (cs : list display_call) (hw : HW) : HW :=
  fold_left (fun h c => exec_call d c h) cs hw.

(** Little-endian bytes of a [uint16_t] (AVR byte order). *)
Definition le16 (x : Z) : list Z := [x mod 256; (x / 256) mod 256].

(** A [char[20]] initialised from a string literal: the characters, then
    zero fill. *)
Definition char20 (s : string) : list Z :=
  firstn 20 (c_chars s ++ repeat 0 20).

(** The object representation of the properties struct (no padding:
    [-fpack-struct], and the AVR aligns to one byte). *)
Definition properties_bytes (p : properties_t) : list Z :=
  le16 (res_x p) ++ le16 (res_y p) ++ [u8 (color_bits p)] ++ char20 (identifier p).

(** [sizeof(display.properties)]: 2 + 2 + 1 + 20. *)
Definition sizeof_properties : Z := 25.

Definition is_send_byte (c : display_call) : bool :=
  match c with CallSendByte _ => true | _ => false end.

Definition is_frame_done (c : display_call) : bool :=
  match c with CallFrameDone => true | _ => false end.

Definition is_frame_start (c : display_call) : bool :=
  match c with CallFrameStart => true | _ => false end.

Definition is_init (c : display_call) : bool :=
  match c with CallInit => true | _ => false end.

(** Number of calls of a kind in a trace. *)
Definition count (p : display_call -> bool) (cs : list display_call) : nat :=
  List.length (filter p cs).

End Display.
Import Display.

(** ** main.c *)
Module Main.

Definition VERSION : string := "1.0".

(** [uint8_t banner[] = "RUDY usbxbm " VERSION;] with its terminator. *)
Definition banner : list Z := c_chars ("RUDY usbxbm " ++ VERSION) ++ [0].

Definition CMD_HELLO : Z := 0x55.
Definition CMD_PROPS : Z := 0x10.
Definition CMD_DATA : Z := 0x20.
Definition CMD_RESET : Z := 0xf0.
Definition CMD_BYE : Z := 0xaa.

Definition ST_IDLE : Z := 0.
Definition ST_READY : Z := 1.

Definition HELLO_VALUE : Z := 0x4d6f.
Definition HELLO_INDEX : Z := 0x6921.

(** V-USB's [USB_NO_MSG] is [((usbMsgLen_t)-1)]; the callbacks return
    [uchar], so it is 255. *)
Definition USB_NO_MSG : Z := u8 (-1).

(** V-USB's [usbRequest_t], the view of the eight setup bytes. *)
Record usbRequest_t := {
  bmRequestType : Z;   (* uchar *)
  bRequest : Z;        (* uchar *)
  wValue : Z;          (* usbWord_t, .word *)
  wIndex : Z;          (* usbWord_t, .word *)
  wLength : Z          (* usbWord_t, .word *)
}.

(** The object V-USB's [usbMsgPtr] points at. *)
Inductive msg_object :=
| MsgUnset
| MsgBanner
| MsgProperties.

(** The module-level variables [state], [recv_len], [recv_cnt], and V-USB's
    [usbMsgPtr]. *)
Record globals := {
  state : Z;               (* uint8_t *)
  recv_len : Z;            (* uint16_t *)
  recv_cnt : Z;            (* uint16_t *)
  usbMsgPtr : msg_object
}.

(** Values at start-up: [state = ST_IDLE], the statics zeroed. *)
Definition startup : globals :=
  {| state := ST_IDLE; recv_len := 0; recv_cnt := 0; usbMsgPtr := MsgUnset |}.

(** *** A state monad over the globals that logs the display calls *)

Definition M (A : Type) : Type := globals -> A * globals * list display_call.

Definition ret {A} (a : A) : M A := fun g => (a, g, []).

Definition bind {A B} (m : M A) (k : A -> M B) : M B :=
  fun g =>
    let '(a, g1, cs1) := m g in
    let '(b, g2, cs2) := k a g1 in
    (b, g2, cs1 ++ cs2).

Declare Scope usb_scope.
Delimit Scope usb_scope with usb.
Notation "x <- m ;; k" := (bind m (fun x => k))
  (at level 61, m at next level, right associativity) : usb_scope.
Notation "m ;; k" := (bind m (fun _ => k))
  (at level 61, right associativity) : usb_scope.
Local Open Scope usb_scope.

Definition get {A} (field : globals -> A) : M A := fun g => (field g, g, []).

Definition call (c : display_call) : M unit := fun g => (tt, g, [c]).

Definition set_state (v : Z) : M unit :=
  fun g => (tt, {| state := v; recv_len := recv_len g;
                   recv_cnt := recv_cnt g; usbMsgPtr := usbMsgPtr g |}, []).

Definition set_recv_len (v : Z) : M unit :=
  fun g => (tt, {| state := state g; recv_len := v;
                   recv_cnt := recv_cnt g; usbMsgPtr := usbMsgPtr g |}, []).

Definition set_recv_cnt (v : Z) : M unit :=
  fun g => (tt, {| state := state g; recv_len := recv_len g;
                   recv_cnt := v; usbMsgPtr := usbMsgPtr g |}, []).

Definition set_usbMsgPtr (p : msg_object) : M unit :=
  fun g => (tt, {| state := state g; recv_len := recv_len g;
                   recv_cnt := recv_cnt g; usbMsgPtr := p |}, []).

Definition when (b : bool) (m : M unit) : M unit := if b then m else ret tt.

(** *** usbFunctionSetup *)

Definition usbFunctionSetup (rq : usbRequest_t) : M Z :=
  if bRequest rq =? CMD_HELLO then
    if (wValue rq =? HELLO_VALUE) && (wIndex rq =? HELLO_INDEX) then
      st <- get state ;;
      when (negb (st =? ST_IDLE)) (call CallInit) ;;
      set_state ST_READY ;;
      set_usbMsgPtr MsgBanner ;;
      ret (sizeof banner)
    else ret 0
  else if bRequest rq =? CMD_PROPS then
    st <- get state ;;
    if st =? ST_READY then
      set_usbMsgPtr MsgProperties ;;
      ret sizeof_properties
    else ret 0
  else if bRequest rq =? CMD_DATA then
    st <- get state ;;
    if st =? ST_READY then
      set_recv_cnt 0 ;;
      set_recv_len (u16 (wLength rq)) ;;
      call CallFrameStart ;;
      ret USB_NO_MSG
    else ret 0
  else if bRequest rq =? CMD_RESET then
    st <- get state ;;
    when (st =? ST_READY) (call CallInit) ;;
    ret 0
  else if bRequest rq =? CMD_BYE then
    set_state ST_IDLE ;;
    ret 0
  else ret 0.

(** *** usbFunctionWrite *)

(** The [for] loop.  [data] holds the [len] bytes of the chunk still ahead
    of index [i]; [i < len <= 255], so [i++] never wraps, and the loop ends
    when the chunk is used up or [recv_cnt] has reached [recv_len]. *)
Fixpoint write_loop (data : list Z) : M unit :=
  match data with
  | [] => ret tt
  | b :: rest =>
      cnt <- get recv_cnt ;;
      len <- get recv_len ;;
      if cnt <? len then
        call (CallSendByte b) ;;
        set_recv_cnt (u16 (cnt + 1)) ;;
        write_loop rest
      else ret tt
  end.

Definition usbFunctionWrite (data : list Z) : M Z :=
  write_loop data ;;
  cnt <- get recv_cnt ;;
  len <- get recv_len ;;
  when (cnt =? len) (call CallFrameDone) ;;
  ret (if cnt =? len then 1 else 0).

(** *** What the transport delivers, and the poll loop *)

Inductive usb_event :=
| Setup (rq : usbRequest_t)
| Write (data : list Z).

Definition handle (e : usb_event) : M Z :=
  match e with
  | Setup rq => usbFunctionSetup rq
  | Write data => usbFunctionWrite data
  end.

(** Handling the events one after the other; the result lists the values
    returned to V-USB. *)
Fixpoint usbPoll (evs : list usb_event) : M (list Z) :=
  match evs with
  | [] => ret []
  | e :: rest =>
      r <- handle e ;;
      rs <- usbPoll rest ;;
      ret (r :: rs)
  end.

(** [main]: initialise the display, then serve the events. *)
Definition main (evs : list usb_event) : M (list Z) :=
  call CallInit ;;
  usbPoll evs.

Definition value {A} (r : A * globals * list display_call) : A := fst (fst r).
Definition after {A} (r : A * globals * list display_call) : globals := snd (fst r).
Definition calls {A} (r : A * globals * list display_call) : list display_call := snd r.

(** The bytes of the object [usbMsgPtr] points at. *)
Definition message (p : properties_t) (g : globals) : list Z :=
  match usbMsgPtr g with
  | MsgUnset => []
  | MsgBanner => banner
  | MsgProperties => properties_bytes p
  end.

(** What the handler hands to V-USB as its answer: nothing for
    [USB_NO_MSG], else the first [n] bytes at [usbMsgPtr] for a return
    value [n]. *)
Definition response (p : properties_t) (r : Z * globals * list display_call) : list Z :=
  if value r =? USB_NO_MSG then []
  else firstn (Z.to_nat (value r)) (message p (after r)).

(** The requests of the protocol; the handler does not look at
    [bmRequestType]. *)
Definition request (cmd val idx len : Z) : usbRequest_t :=
  {| bmRequestType := 0x40; bRequest := cmd;
     wValue := val; wIndex := idx; wLength := len |}.

Definition Hello (magic_a magic_b : Z) : usb_event :=
  Setup (request CMD_HELLO magic_a magic_b (sizeof banner)).
Definition QueryProperties : usb_event :=
  Setup (request CMD_PROPS 0 0 sizeof_properties).
Definition Data (len : Z) : usb_event :=
  Setup (request CMD_DATA 0 0 len).
Definition Reset : usb_event := Setup (request CMD_RESET 0 0 0).
Definition Bye : usb_event := Setup (request CMD_BYE 0 0 0).

End Main.

(** ** nokia5110.c *)
Module Nokia5110.

Definition X_RES : Z := 84.
Definition Y_RES : Z := 48.

(** Bit numbers of the ATmega328P registers used ([avr/io.h]). *)
Definition PB0 : Z := 0.
Definition PB1 : Z := 1.
Definition PB2 : Z := 2.
Definition DDB3 : Z := 3.
Definition DDB5 : Z := 5.
Definition SPR0 : Z := 0.
Definition SPR1 : Z := 1.
Definition CPHA : Z := 2.
Definition CPOL : Z := 3.
Definition MSTR : Z := 4.
Definition DORD : Z := 5.
Definition SPE : Z := 6.
Definition SPI2X : Z := 0.
Definition SPIF : Z := 7.

Definition LCD_RESET_PIN : Z := PB0.
Definition SPI_CS_PIN : Z := PB2.
Definition SPI_DC_PIN : Z := PB1.

(** The I/O registers the driver touches, and what has been shifted out on
    the SPI bus: each byte with the value [PORTB] had at that moment (it
    carries the chip-select and data/command levels). *)
Record avr := {
  DDRB : Z;
  PORTB : Z;
  SPCR : Z;
  SPSR : Z;
  SPDR : Z;
  wire : list (Z * Z)
}.

Definition set_DDRB (v : Z) (hw : avr) : avr :=
  {| DDRB := u8 v; PORTB := PORTB hw; SPCR := SPCR hw; SPSR := SPSR hw;
     SPDR := SPDR hw; wire := wire hw |}.

Definition set_PORTB (v : Z) (hw : avr) : avr :=
  {| DDRB := DDRB hw; PORTB := u8 v; SPCR := SPCR hw; SPSR := SPSR hw;
     SPDR := SPDR hw; wire := wire hw |}.

Definition set_SPCR (v : Z) (hw : avr) : avr :=
  {| DDRB := DDRB hw; PORTB := PORTB hw; SPCR := u8 v; SPSR := SPSR hw;
     SPDR := SPDR hw; wire := wire hw |}.

Definition set_SPSR (v : Z) (hw : avr) : avr :=
  {| DDRB := DDRB hw; PORTB := PORTB hw; SPCR := SPCR hw; SPSR := u8 v;
     SPDR := SPDR hw; wire := wire hw |}.

(** [reg |= (1 << pin)] and [reg &= ~(1 << pin)]. *)
Definition bit_set (reg pin : Z) : Z := Z.lor reg (Z.shiftl 1 pin).
Definition bit_clear (reg pin : Z) : Z := Z.land reg (Z.lnot (Z.shiftl 1 pin)).

Definition lcd_rst_high (hw : avr) : avr := set_PORTB (bit_set (PORTB hw) LCD_RESET_PIN) hw.
Definition lcd_rst_low (hw : avr) : avr := set_PORTB (bit_clear (PORTB hw) LCD_RESET_PIN) hw.
Definition spi_cs_high (hw : avr) : avr := set_PORTB (bit_set (PORTB hw) SPI_CS_PIN) hw.
Definition spi_cs_low (hw : avr) : avr := set_PORTB (bit_clear (PORTB hw) SPI_CS_PIN) hw.
Definition spi_dc_high (hw : avr) : avr := set_PORTB (bit_set (PORTB hw) SPI_DC_PIN) hw.
Definition spi_dc_low (hw : avr) : avr := set_PORTB (bit_clear (PORTB hw) SPI_DC_PIN) hw.

Definition lcd_spi_enable := spi_cs_low.
Definition lcd_spi_disable := spi_cs_high.
Definition lcd_command_mode := spi_dc_low.
Definition lcd_data_mode := spi_dc_high.

(** [_delay_ms]: time passes, no register changes. *)
Definition _delay_ms (ms : Z) (hw : avr) : avr := hw.

(** Steps of a function body, first to last. *)
Definition steps (body : list (avr -> avr)) (hw : avr) : avr :=
  fold_left (fun h step => step h) body hw.

Definition port_setup : avr -> avr :=
  steps [
    (fun hw => set_DDRB (bit_set (DDRB hw) LCD_RESET_PIN) hw);
    (fun hw => set_DDRB (bit_set (DDRB hw) SPI_CS_PIN) hw);
    (fun hw => set_DDRB (bit_set (DDRB hw) SPI_DC_PIN) hw);
    (fun hw => set_DDRB (Z.lor (DDRB hw) (Z.lor (Z.shiftl 1 DDB3) (Z.shiftl 1 DDB5))) hw)
  ].

Definition nokia5110_reset : avr -> avr :=
  steps [ lcd_rst_low; _delay_ms 50; lcd_rst_high ].

Definition spi_init : avr -> avr :=
  steps [
    (fun hw => set_SPCR (Z.lor (Z.shiftl 1 SPE) (Z.shiftl 1 MSTR)) hw);
    (fun hw => set_SPCR (Z.lor (SPCR hw) (Z.lor (Z.shiftl 0 CPOL) (Z.shiftl 0 CPHA))) hw);
    (fun hw => set_SPCR (Z.lor (SPCR hw) (Z.lor (Z.shiftl 0 SPR0) (Z.shiftl 0 SPR1))) hw);
    (fun hw => set_SPCR (Z.lor (SPCR hw) (Z.shiftl 0 DORD)) hw);
    (fun hw => set_SPSR (bit_set (SPSR hw) SPI2X) hw)
  ].

(** [SPDR = data], then the wait for [SPIF]: the hardware shifts the byte
    out and raises the flag, which ends the loop. *)
Definition spi_send_byte (data : Z) (hw : avr) : avr :=
  {| DDRB := DDRB hw; PORTB := PORTB hw; SPCR := SPCR hw;
     SPSR := u8 (bit_set (SPSR hw) SPIF);
     SPDR := u8 data;
     wire := wire hw ++ [(PORTB hw, u8 data)] |}.

Section Splash.

(** The splash image in flash, [nokia_gfx_nokia_splash] of [nokia_gfx.h],
    read by index with [pgm_read_byte]. *)
Variable nokia_gfx_nokia_splash : nat -> Z.

(** The bytes the [for] loop of [nokia5110_init] reads, [i] from 0 up to
    [X_RES * (Y_RES / 8)]. *)
Definition splash_frame : list Z :=
  map nokia_gfx_nokia_splash (seq 0 (Z.to_nat (X_RES * (Y_RES / 8)))).

Definition nokia5110_init : avr -> avr :=
  steps ([
    port_setup;
    spi_init;
    nokia5110_reset;
    lcd_spi_enable;
    lcd_command_mode;
    spi_send_byte 0x21;
    spi_send_byte 0xc8;
    spi_send_byte 0x06;
    spi_send_byte 0x12;
    spi_send_byte 0x20;
    spi_send_byte 0x08;
    spi_send_byte 0x0c;
    spi_send_byte 0x80;
    spi_send_byte 0x40;
    lcd_data_mode ]
    ++ map spi_send_byte splash_frame
    ++ [ lcd_spi_disable ]).

Definition nokia5110_frame_start : avr -> avr :=
  steps [
    lcd_spi_enable;
    lcd_command_mode;
    spi_send_byte 0x80;
    spi_send_byte 0x40;
    lcd_data_mode
  ].

Definition nokia5110_frame_done : avr -> avr :=
  steps [ lcd_spi_disable ].

(** [display_t display = { ... }]. *)
Definition display : display_t avr :=
  {| init := nokia5110_init;
     frame_start := nokia5110_frame_start;
     send_byte := spi_send_byte;
     frame_done := nokia5110_frame_done;
     properties :=
       {| res_x := X_RES; res_y := Y_RES; color_bits := 1;
          identifier := "Nokia 5110" |} |}.

(** The part of [nokia5110_init] up to the display being set to normal
    mode, before the splash screen is sent. *)
Definition nokia5110_configure : avr -> avr :=
  steps [
    port_setup;
    spi_init;
    nokia5110_reset;
    lcd_spi_enable;
    lcd_command_mode;
    spi_send_byte 0x21;
    spi_send_byte 0xc8;
    spi_send_byte 0x06;
    spi_send_byte 0x12;
    spi_send_byte 0x20;
    spi_send_byte 0x08;
    spi_send_byte 0x0c
  ].

End Splash.

End Nokia5110.

(** ** st7789.c *)
Module St7789.

Import Nokia5110.

Definition X_RES : Z := 240.
Definition Y_RES : Z := 240.

Definition LCD_RESET_PIN : Z := PB1.
Definition SPI_CS_PIN : Z := PB2.
Definition SPI_DC_PIN : Z := PB0.

Definition lcd_rst_high (hw : avr) : avr := set_PORTB (bit_set (PORTB hw) LCD_RESET_PIN) hw.
Definition lcd_rst_low (hw : avr) : avr := set_PORTB (bit_clear (PORTB hw) LCD_RESET_PIN) hw.
Definition spi_cs_high (hw : avr) : avr := set_PORTB (bit_set (PORTB hw) SPI_CS_PIN) hw.
Definition spi_cs_low (hw : avr) : avr := set_PORTB (bit_clear (PORTB hw) SPI_CS_PIN) hw.
Definition spi_dc_high (hw : avr) : avr := set_PORTB (bit_set (PORTB hw) SPI_DC_PIN) hw.
Definition spi_dc_low (hw : avr) : avr := set_PORTB (bit_clear (PORTB hw) SPI_DC_PIN) hw.

Definition lcd_spi_enable := spi_cs_low.
Definition lcd_spi_disable := spi_cs_high.
Definition lcd_command_mode := spi_dc_low.
Definition lcd_data_mode := spi_dc_high.

Definition port_setup : avr -> avr :=
  steps [
    (fun hw => set_DDRB (Z.lor (Z.shiftl 1 DDB3) (Z.shiftl 1 DDB5)) hw);
    (fun hw => set_DDRB (bit_set (DDRB hw) LCD_RESET_PIN) hw);
    (fun hw => set_DDRB (bit_set (DDRB hw) SPI_CS_PIN) hw);
    (fun hw => set_DDRB (bit_set (DDRB hw) SPI_DC_PIN) hw);
    (fun hw => set_PORTB (bit_set (PORTB hw) LCD_RESET_PIN) hw);
    (fun hw => set_PORTB (bit_set (PORTB hw) SPI_CS_PIN) hw);
    (fun hw => set_PORTB (bit_set (PORTB hw) SPI_DC_PIN) hw)
  ].

Definition st7789_reset : avr -> avr :=
  steps [ lcd_rst_low; _delay_ms 10; lcd_rst_high ].

Definition spi_init : avr -> avr :=
  steps [
    (fun hw => set_SPCR (Z.lor (Z.shiftl 1 SPE) (Z.shiftl 1 MSTR)) hw);
    (fun hw => set_SPCR (Z.lor (SPCR hw) (Z.lor (Z.shiftl 1 CPOL) (Z.shiftl 1 CPHA))) hw);
    (fun hw => set_SPCR (Z.lor (SPCR hw) (Z.lor (Z.shiftl 0 SPR0) (Z.shiftl 0 SPR1))) hw);
    (fun hw => set_SPCR (Z.lor (SPCR hw) (Z.shiftl 0 DORD)) hw);
    (fun hw => set_SPSR (bit_set (SPSR hw) SPI2X) hw)
  ].

(** The same body as in nokia5110.c. *)
Definition spi_send_byte : Z -> avr -> avr := Nokia5110.spi_send_byte.

Definition ST77XX_SWRESET : Z := 0x01.
Definition ST77XX_SLPOUT : Z := 0x11.
Definition ST77XX_COLMOD : Z := 0x3A.
Definition ST77XX_MADCTL : Z := 0x36.
Definition ST77XX_CASET : Z := 0x2A.
Definition ST77XX_RASET : Z := 0x2B.
Definition ST77XX_INVON : Z := 0x21.
Definition ST77XX_NORON : Z := 0x13.
Definition ST77XX_DISPON : Z := 0x29.
Definition ST77XX_RAMWR : Z := 0x2C.

Definition st7789_frame_start : avr -> avr :=
  steps [
    lcd_spi_enable;
    lcd_command_mode;
    spi_send_byte ST77XX_CASET;
    lcd_data_mode;
    spi_send_byte 0x00;
    spi_send_byte 0x00;
    spi_send_byte 0x00;
    spi_send_byte 239;
    lcd_command_mode;
    spi_send_byte ST77XX_RASET;
    lcd_data_mode;
    spi_send_byte 0x00;
    spi_send_byte 80;
    spi_send_byte (Z.shiftr 319 8);
    spi_send_byte (Z.land 319 0xff);
    lcd_command_mode;
    spi_send_byte ST77XX_RAMWR;
    lcd_data_mode
  ].

(** The values [i] takes in [for (i = 0; i < n; i++)]. *)
Definition upto (n : Z) : list Z := map Z.of_nat (seq 0 (Z.to_nat n)).

(** One round of the loop of [st7789_send_byte]. *)
Definition send_pixel (data i : Z) : list (avr -> avr) :=
  let byte := Z.land (Z.shiftr data i) 0x01 in
  if negb (byte =? 0)
  then [ spi_send_byte 0xff; spi_send_byte 0xff ]
  else [ spi_send_byte 0x00; spi_send_byte 0x00 ].

(** [data] arrives as a [uint8_t]. *)
Definition st7789_send_byte (data : Z) : avr -> avr :=
  steps (flat_map (send_pixel (u8 data)) (upto 8)).

Definition st7789_frame_done : avr -> avr :=
  steps [ lcd_spi_disable ].

(** The two nested loops of [st7789_init] that send the splash screen;
    [row] and [col] are [uint8_t] and stay below 240. *)
Definition splash_steps : list (avr -> avr) :=
  flat_map (fun row =>
    flat_map (fun col => [ spi_send_byte 0; spi_send_byte col ]) (upto X_RES))
    (upto Y_RES).

Definition st7789_init : avr -> avr :=
  steps ([
    port_setup;
    spi_init;
    st7789_reset;
    lcd_spi_enable;
    lcd_command_mode;
    spi_send_byte ST77XX_SWRESET;
    _delay_ms 150;
    lcd_command_mode;
    spi_send_byte ST77XX_SLPOUT;
    _delay_ms 10;
    lcd_command_mode;
    spi_send_byte ST77XX_COLMOD;
    lcd_data_mode;
    spi_send_byte 0x55;
    _delay_ms 10;
    lcd_command_mode;
    spi_send_byte ST77XX_MADCTL;
    lcd_data_mode;
    spi_send_byte 0x08;
    lcd_command_mode;
    spi_send_byte ST77XX_CASET;
    lcd_data_mode;
    spi_send_byte 0x00;
    spi_send_byte 0x00;
    spi_send_byte 0x00;
    spi_send_byte 240;
    lcd_command_mode;
    spi_send_byte ST77XX_RASET;
    lcd_data_mode;
    spi_send_byte 0x00;
    spi_send_byte 0;
    spi_send_byte (Z.shiftr 320 8);
    spi_send_byte (Z.land 320 0xff);
    lcd_command_mode;
    spi_send_byte ST77XX_INVON;
    _delay_ms 10;
    lcd_command_mode;
    spi_send_byte ST77XX_NORON;
    _delay_ms 10;
    lcd_command_mode;
    spi_send_byte ST77XX_MADCTL;
    lcd_data_mode;
    spi_send_byte 0xc0;
    st7789_frame_start ]
    ++ splash_steps
    ++ [ lcd_command_mode;
         spi_send_byte ST77XX_DISPON;
         lcd_spi_disable ]).

(** [display_t display = { ... }]. *)
Definition display : display_t avr :=
  {| init := st7789_init;
     frame_start := st7789_frame_start;
     send_byte := st7789_send_byte;
     frame_done := st7789_frame_done;
     properties :=
       {| res_x := X_RES; res_y := Y_RES; color_bits := 1;
          identifier := "ST7789 IPS" |} |}.

End St7789.

(** ** ssd1306.c *)
Module Ssd1306.

Definition X_RES : Z := 128.
Definition Y_RES : Z := 64.

Definition SSD1306_ADDR : Z := 0x3c.

Definition F_SCL : Z := 400000.

(** [-DF_CPU=$(F_CPU)] of the Makefile. *)
Definition F_CPU : Z := 12000000.

(** Bit numbers of TWCR ([avr/io.h]) and the status code of a sent START
    ([util/twi.h]). *)
Definition TWINT : Z := 7.
Definition TWSTA : Z := 5.
Definition TWSTO : Z := 4.
Definition TWEN : Z := 2.
Definition TW_START : Z := 0x08.

(** What the TWI unit is told to do by a write to TWCR with TWINT set. *)
Inductive twi_op :=
| Start
| Send (b : Z)
| Stop.

(** The TWI registers, the operations the unit has been given so far, and
    the bus as the firmware meets it: [start_status k] is what TWSR shows
    once the [k]-th START condition of the run has been handled, [starts]
    counts the START conditions so far. *)
Record twi := {
  TWSR : Z;
  TWBR : Z;
  TWCR : Z;
  TWDR : Z;
  ops : list twi_op;
  starts : nat;
  start_status : nat -> Z
}.

Definition set_TWSR (v : Z) (hw : twi) : twi :=
  {| TWSR := u8 v; TWBR := TWBR hw; TWCR := TWCR hw; TWDR := TWDR hw;
     ops := ops hw; starts := starts hw; start_status := start_status hw |}.

Definition set_TWBR (v : Z) (hw : twi) : twi :=
  {| TWSR := TWSR hw; TWBR := u8 v; TWCR := TWCR hw; TWDR := TWDR hw;
     ops := ops hw; starts := starts hw; start_status := start_status hw |}.

Definition set_TWDR (v : Z) (hw : twi) : twi :=
  {| TWSR := TWSR hw; TWBR := TWBR hw; TWCR := TWCR hw; TWDR := u8 v;
     ops := ops hw; starts := starts hw; start_status := start_status hw |}.

(** A write to TWCR.  With TWINT set the unit takes up the operation the
    other bits select: a START with TWSTA, a STOP with TWSTO, else the
    transmission of TWDR.  A START ends with its status in TWSR. *)
Definition set_TWCR (v : Z) (hw : twi) : twi :=
  if negb (Z.testbit v TWINT) then
    {| TWSR := TWSR hw; TWBR := TWBR hw; TWCR := u8 v; TWDR := TWDR hw;
       ops := ops hw; starts := starts hw; start_status := start_status hw |}
  else if Z.testbit v TWSTA then
    {| TWSR := u8 (start_status hw (starts hw)); TWBR := TWBR hw; TWCR := u8 v;
       TWDR := TWDR hw; ops := ops hw ++ [Start]; starts := S (starts hw);
       start_status := start_status hw |}
  else
    {| TWSR := TWSR hw; TWBR := TWBR hw; TWCR := u8 v; TWDR := TWDR hw;
       ops := ops hw ++ [if Z.testbit v TWSTO then Stop else Send (TWDR hw)];
       starts := starts hw; start_status := start_status hw |}.

(** The wait for TWINT: the unit raises the flag when the operation is
    over, which ends the loop. *)
Definition wait_TWINT (hw : twi) : twi := hw.

Definition twi_steps (body : list (twi -> twi)) (hw : twi) : twi :=
  fold_left (fun h step => step h) body hw.

Definition twi_init : twi -> twi :=
  twi_steps [
    set_TWSR 0;
    set_TWBR (((F_CPU / F_SCL) - 16) / 2);
    set_TWCR 0
  ].

(** [twi_start] with its return value. *)
Definition twi_start (hw : twi) : Z * twi :=
  let hw1 :=
    twi_steps [
      set_TWCR (Z.lor (Z.lor (Z.shiftl 1 TWINT) (Z.shiftl 1 TWSTA)) (Z.shiftl 1 TWEN));
      wait_TWINT ] hw in
  if negb (Z.land (TWSR hw1) 0xf8 =? TW_START) then (1, hw1)
  else
    (0, twi_steps [
          set_TWDR (Z.shiftl SSD1306_ADDR 1);
          set_TWCR (Z.lor (Z.shiftl 1 TWINT) (Z.shiftl 1 TWEN));
          wait_TWINT ] hw1).

(** A call of [twi_start] whose result is not used. *)
Definition twi_start_ (hw : twi) : twi := snd (twi_start hw).

Definition twi_send_byte (data : Z) : twi -> twi :=
  twi_steps [
    set_TWDR data;
    set_TWCR (Z.lor (Z.shiftl 1 TWINT) (Z.shiftl 1 TWEN));
    wait_TWINT
  ].

Definition twi_stop : twi -> twi :=
  twi_steps [
    set_TWCR (Z.lor (Z.lor (Z.shiftl 1 TWINT) (Z.shiftl 1 TWEN)) (Z.shiftl 1 TWSTO))
  ].

Definition init_sequence : list Z :=
  [ 0xAE;
    0x20; 0;
    0xB0;
    0xC8;
    0x00;
    0x10;
    0x40;
    0x81; 0x3F;
    0xA1;
    0xA7;
    0xA8; Y_RES - 1;
    0xA4;
    0xD3; 0x00;
    0xD5;
    0xF0;
    0xD9; 0x22;
    0xDA; 0x12;
    0xDB;
    0x20;
    0x8D; 0x14;
    0xAF ].

Definition ssd1306_init_send : twi -> twi :=
  twi_steps [
    twi_start_;
    twi_send_byte 0x00;
    twi_send_byte 0xb0;
    twi_send_byte 0x21;
    twi_send_byte 0x00;
    twi_send_byte 0x7f;
    twi_stop;
    twi_start_;
    twi_send_byte 0x40
  ].

Section Splash.

(** The splash image in flash, [ssd1306_gfx_ssd1306_splash] of
    [ssd1306_gfx.h], read by index with [pgm_read_byte]. *)
Variable ssd1306_gfx_ssd1306_splash : nat -> Z.

Definition splash_frame : list Z :=
  map ssd1306_gfx_ssd1306_splash (seq 0 (Z.to_nat (X_RES * (Y_RES / 8)))).

Definition ssd1306_init : twi -> twi :=
  twi_steps ([
    twi_init;
    twi_start_;
    twi_send_byte 0x00 ]
    ++ map twi_send_byte init_sequence
    ++ [ twi_stop;
         ssd1306_init_send ]
    ++ map twi_send_byte splash_frame
    ++ [ twi_stop ]).

(** [display_t display = { ... }]. *)
Definition display : display_t twi :=
  {| init := ssd1306_init;
     frame_start := ssd1306_init_send;
     send_byte := twi_send_byte;
     frame_done := twi_stop;
     properties :=
       {| res_x := X_RES; res_y := Y_RES; color_bits := 1;
          identifier := "SSD1306 OLED" |} |}.

End Splash.

End Ssd1306.

Import Main.
Import Nokia5110.
Local Open Scope usb_scope.

(** * Vocabulary of the statements *)

(** The globals with one field replaced. *)
Definition with_state (v : Z) (g : globals) : globals := after (set_state v g).
Definition with_recv_len (v : Z) (g : globals) : globals := after (set_recv_len v g).
Definition with_recv_cnt (v : Z) (g : globals) : globals := after (set_recv_cnt v g).
Definition with_usbMsgPtr (p : msg_object) (g : globals) : globals := after (set_usbMsgPtr p g).

(** The magic test of [CMD_HELLO]. *)
Definition magic_ok (rq : usbRequest_t) : bool :=
  (wValue rq =? HELLO_VALUE) && (wIndex rq =? HELLO_INDEX).

(** How many more bytes the transfer takes, and the part of a chunk that is
    taken. *)
Definition room (g : globals) : nat := Z.to_nat (recv_len g - recv_cnt g).
Definition accepted (data : list Z) (g : globals) : list Z := firstn (room g) data.

(** The transfer-progress invariant, with the ranges of the two counters. *)
Definition progress_ok (g : globals) : Prop :=
  0 <= recv_cnt g /\ recv_cnt g <= recv_len g /\ recv_len g <= 65535.

Definition is_valid_hello (e : usb_event) : bool :=
  match e with
  | Setup rq => (bRequest rq =? CMD_HELLO) && magic_ok rq
  | Write _ => false
  end.

Definition is_bye (e : usb_event) : bool :=
  match e with
  | Setup rq => bRequest rq =? CMD_BYE
  | Write _ => false
  end.

(** The most recent valid Hello of the sequence has no Bye after it. *)
Definition session_open (evs : list usb_event) : Prop :=
  exists pre h post,
    evs = pre ++ h :: post /\
    is_valid_hello h = true /\
    forallb (fun e => negb (is_valid_hello e)) post = true /\
    forallb (fun e => negb (is_bye e)) post = true.

(** A port pin is driven low. *)
Definition pin_low (pin : Z) (hw : avr) : Prop :=
  u8 (bit_clear (PORTB hw) pin) = PORTB hw.

(** Delivery in chunks that together stay within the declared length. *)
Definition completes (g : globals) (frags : list (list Z)) : bool :=
  match frags with
  | [] => false
  | _ :: _ => recv_cnt g + sizeof (List.concat frags) =? recv_len g
  end.

(** A device in Ready with no transfer under way: what a valid Hello leaves
    after start-up. *)
Definition ready : globals :=
  {| state := ST_READY; recv_len := 0; recv_cnt := 0; usbMsgPtr := MsgBanner |}.

(** The request is answered with the properties record. *)
Definition answers_properties (p : properties_t)
    (r : Z * globals * list display_call) : Prop :=
  value r = sizeof_properties /\ response p r = properties_bytes p.

(** The request is answered with the banner. *)
Definition answers_banner (p : properties_t)
    (r : Z * globals * list display_call) : Prop :=
  value r = sizeof banner /\ response p r = banner.

(** The properties of the Nokia 5110 build. *)
Definition nokia5110_properties : properties_t :=
  properties (Nokia5110.display (fun _ => 0)).

(** Chunks of at least one byte each. *)
Definition nonempty_chunks (frags : list (list Z)) : Prop :=
  Forall (fun f => f <> []) frags.

(** Whether a frame is open after a trace: [frame_start] opens one,
    [frame_done] closes it, the other calls leave it as it is. *)
Fixpoint frame_open (open : bool) (cs : list display_call) : bool :=
  match cs with
  | [] => open
  | CallFrameStart :: rest => frame_open true rest
  | CallFrameDone :: rest => frame_open false rest
  | _ :: rest => frame_open open rest
  end.

(** Every [send_byte] of the trace falls inside an open frame. *)
Fixpoint sends_inside_frames (open : bool) (cs : list display_call) : bool :=
  match cs with
  | [] => true
  | CallFrameStart :: rest => sends_inside_frames true rest
  | CallFrameDone :: rest => sends_inside_frames false rest
  | CallSendByte _ :: rest => open && sends_inside_frames open rest
  | CallInit :: rest => sends_inside_frames open rest
  end.

(** The request codes the switch of [usbFunctionSetup] has a case for. *)
Definition known_command (b : Z) : bool :=
  (b =? CMD_HELLO) || (b =? CMD_PROPS) || (b =? CMD_DATA) || (b =? CMD_RESET)
  || (b =? CMD_BYE).

(** What a byte on the SPI wire was sent as: the panel takes it when chip
    select (active low) is low, as a command when the data/command line is
    low and as display data when it is high. *)
Definition sent_as_command (e : Z * Z) : bool :=
  negb (Z.testbit (fst e) SPI_CS_PIN) && negb (Z.testbit (fst e) SPI_DC_PIN).

Definition sent_as_data (e : Z * Z) : bool :=
  negb (Z.testbit (fst e) SPI_CS_PIN) && Z.testbit (fst e) SPI_DC_PIN.

(** The bytes of wire entries. *)
Definition bytes_of (w : list (Z * Z)) : list Z := map snd w.

(** The ST7789 wiring: the level of chip select and of the data/command
    line at a moment, and each byte on the wire with the two levels it was
    sent under. *)
Definition st_cs (hw : avr) : bool := Z.testbit (PORTB hw) St7789.SPI_CS_PIN.
Definition st_dc (hw : avr) : bool := Z.testbit (PORTB hw) St7789.SPI_DC_PIN.

Definition st_levels (e : Z * Z) : bool * bool * Z :=
  (Z.testbit (fst e) St7789.SPI_CS_PIN, Z.testbit (fst e) St7789.SPI_DC_PIN, snd e).

Definition st_seen (hw : avr) : list (bool * bool * Z) := map st_levels (wire hw).

(** A byte taken by the panel as a command, and as data. *)
Definition st_cmd (b : Z) : bool * bool * Z := (false, false, b).
Definition st_dat (b : Z) : bool * bool * Z := (false, true, b).

(** The sixteen bytes that stand for the eight pixels of a frame byte, bit
    0 first: two 0xff for a set bit, two 0x00 for a clear one. *)
Definition pixel_bytes (data : Z) : list Z :=
  flat_map (fun i => if Z.testbit data i then [0xff; 0xff] else [0x00; 0x00])
           (St7789.upto 8).

(** Reading a frame byte back from its pixel bytes. *)
Fixpoint pixels_to_byte (l : list Z) : Z :=
  match l with
  | hi :: _ :: rest => (if hi =? 0 then 0 else 1) + 2 * pixels_to_byte rest
  | _ => 0
  end.

(** The window [st7789_frame_start] addresses: columns 0 to 239 and rows 80
    to 319, as sent after CASET and RASET. *)
Definition st7789_window_pixels : Z := (239 - 0 + 1) * (319 - 80 + 1).

(** The bytes of the splash screen of [st7789_init]. *)
Definition st7789_splash_bytes : list Z :=
  flat_map (fun row => flat_map (fun col => [0; col]) (St7789.upto St7789.X_RES))
           (St7789.upto St7789.Y_RES).

(** Whether the [k]-th START of a run is reported as sent. *)
Definition start_ok (hw : Ssd1306.twi) (k : nat) : bool :=
  Z.land (u8 (Ssd1306.start_status hw k)) 0xf8 =? Ssd1306.TW_START.

(** The address byte [twi_start] sends after a START that went well:
    the 7-bit address shifted left, write flag clear. *)
Definition address_if (ok : bool) : list Ssd1306.twi_op :=
  if ok then [Ssd1306.Send 0x78] else [].

(** The part of [ssd1306_init] before the splash screen is sent. *)
Definition ssd1306_configure : Ssd1306.twi -> Ssd1306.twi :=
  Ssd1306.twi_steps ([
    Ssd1306.twi_init;
    Ssd1306.twi_start_;
    Ssd1306.twi_send_byte 0x00 ]
    ++ map Ssd1306.twi_send_byte Ssd1306.init_sequence
    ++ [ Ssd1306.twi_stop ]).

(** * Properties of the command dispatch *)

Lemma globals_eta (g : globals) :
  {| state := state g; recv_len := recv_len g;
     recv_cnt := recv_cnt g; usbMsgPtr := usbMsgPtr g |} = g.
Proof. destruct g; reflexivity. Qed.

Ltac run_handler :=
  cbv [usbFunctionSetup usbFunctionWrite bind ret get call when
       set_state set_recv_len set_recv_cnt set_usbMsgPtr
       with_state with_recv_len with_recv_cnt with_usbMsgPtr after value calls
       fst snd].

Lemma magic_ok_iff rq :
  magic_ok rq = true <-> wValue rq = HELLO_VALUE /\ wIndex rq = HELLO_INDEX.
Proof.
  unfold magic_ok. rewrite andb_true_iff, !Z.eqb_eq. tauto.
Qed.

Lemma setup_hello rq g :
  bRequest rq = CMD_HELLO ->
  usbFunctionSetup rq g =
    if magic_ok rq
    then (sizeof banner,
          with_usbMsgPtr MsgBanner (with_state ST_READY g),
          if state g =? ST_IDLE then [] else [CallInit])
    else (0, g, []).
Proof.
  intros Hrq. run_handler. rewrite Hrq. unfold magic_ok. simpl.
  destruct ((wValue rq =? HELLO_VALUE) && (wIndex rq =? HELLO_INDEX)); [|reflexivity].
  destruct (state g =? ST_IDLE); reflexivity.
Qed.

Lemma setup_props rq g :
  bRequest rq = CMD_PROPS ->
  usbFunctionSetup rq g =
    if state g =? ST_READY
    then (sizeof_properties, with_usbMsgPtr MsgProperties g, [])
    else (0, g, []).
Proof.
  intros Hrq. run_handler. rewrite Hrq. simpl.
  destruct (state g =? ST_READY); reflexivity.
Qed.

Lemma setup_data rq g :
  bRequest rq = CMD_DATA ->
  usbFunctionSetup rq g =
    if state g =? ST_READY
    then (USB_NO_MSG, with_recv_len (u16 (wLength rq)) (with_recv_cnt 0 g),
          [CallFrameStart])
    else (0, g, []).
Proof.
  intros Hrq. run_handler. rewrite Hrq. simpl.
  destruct (state g =? ST_READY); reflexivity.
Qed.

Lemma setup_reset rq g :
  bRequest rq = CMD_RESET ->
  usbFunctionSetup rq g =
    (0, g, if state g =? ST_READY then [CallInit] else []).
Proof.
  intros Hrq. run_handler. rewrite Hrq. simpl.
  destruct (state g =? ST_READY); reflexivity.
Qed.

Lemma setup_bye rq g :
  bRequest rq = CMD_BYE ->
  usbFunctionSetup rq g = (0, with_state ST_IDLE g, []).
Proof.
  intros Hrq. run_handler. rewrite Hrq. reflexivity.
Qed.

Lemma setup_unknown rq g :
  bRequest rq <> CMD_HELLO -> bRequest rq <> CMD_PROPS ->
  bRequest rq <> CMD_DATA -> bRequest rq <> CMD_RESET ->
  bRequest rq <> CMD_BYE ->
  usbFunctionSetup rq g = (0, g, []).
Proof.
  intros H1 H2 H3 H4 H5. run_handler.
  apply Z.eqb_neq in H1, H2, H3, H4, H5.
  rewrite H1, H2, H3, H4, H5. reflexivity.
Qed.

(** * The frame receiver *)

Lemma with_recv_cnt_same g : with_recv_cnt (recv_cnt g) g = g.
Proof. destruct g; reflexivity. Qed.

Lemma sizeof_cons (b : Z) (l : list Z) : sizeof (b :: l) = 1 + sizeof l.
Proof. unfold sizeof. cbn [List.length]. lia. Qed.

Lemma sizeof_app (l1 l2 : list Z) : sizeof (l1 ++ l2) = sizeof l1 + sizeof l2.
Proof. unfold sizeof. rewrite length_app. lia. Qed.

Lemma sizeof_nonneg (l : list Z) : 0 <= sizeof l.
Proof. unfold sizeof. lia. Qed.

Lemma sizeof_accepted data g :
  sizeof (accepted data g) = Z.min (sizeof data) (Z.max 0 (recv_len g - recv_cnt g)).
Proof.
  unfold accepted, room, sizeof. rewrite length_firstn. lia.
Qed.

Lemma write_loop_spec data :
  forall g, 0 <= recv_cnt g -> recv_len g <= 65535 ->
  write_loop data g =
    (tt, with_recv_cnt (recv_cnt g + sizeof (accepted data g)) g,
     map CallSendByte (accepted data g)).
Proof.
  induction data as [|b rest IH]; intros g Hlo Hhi.
  - unfold accepted. rewrite firstn_nil. cbn [write_loop map sizeof List.length ret].
    rewrite Z.add_0_r, with_recv_cnt_same. reflexivity.
  - cbn [write_loop]. run_handler.
    destruct (Z.ltb_spec (recv_cnt g) (recv_len g)) as [Hlt|Hge].
    + set (g1 := {| state := state g; recv_len := recv_len g;
                    recv_cnt := u16 (recv_cnt g + 1); usbMsgPtr := usbMsgPtr g |}).
      assert (Hu : u16 (recv_cnt g + 1) = recv_cnt g + 1)
        by (unfold u16; apply Z.mod_small; lia).
      assert (Hroom : room g = S (room g1)).
      { unfold room, g1. cbn [recv_len recv_cnt]. rewrite Hu. lia. }
      rewrite (IH g1) by (unfold g1; cbn [recv_len recv_cnt]; lia).
      unfold accepted. rewrite Hroom. cbn [firstn map app].
      rewrite sizeof_cons. run_handler. unfold g1. cbn [recv_len recv_cnt state usbMsgPtr].
      rewrite Hu. do 2 f_equal. f_equal. lia.
    + assert (Hroom : room g = 0%nat) by (unfold room; lia).
      unfold accepted. rewrite Hroom. cbn [firstn map sizeof List.length].
      rewrite Z.add_0_r. destruct g; reflexivity.
Qed.

(** What one delivery does, in closed form. *)
Lemma usbFunctionWrite_spec data g :
  0 <= recv_cnt g -> recv_len g <= 65535 ->
  let cnt' := recv_cnt g + sizeof (accepted data g) in
  usbFunctionWrite data g =
    (if cnt' =? recv_len g then 1 else 0,
     with_recv_cnt cnt' g,
     map CallSendByte (accepted data g)
       ++ (if cnt' =? recv_len g then [CallFrameDone] else [])).
Proof.
  intros Hlo Hhi cnt'. unfold usbFunctionWrite, bind.
  rewrite write_loop_spec by assumption. fold cnt'.
  run_handler. cbn [recv_cnt recv_len].
  destruct (cnt' =? recv_len g); rewrite ?app_nil_r; reflexivity.
Qed.

(** * Event sequences *)

Lemma bind_unfold {A B} (m : M A) (k : A -> M B) g :
  bind m k g =
    (value (k (value (m g)) (after (m g))),
     after (k (value (m g)) (after (m g))),
     calls (m g) ++ calls (k (value (m g)) (after (m g)))).
Proof.
  unfold bind, value, after, calls.
  destruct (m g) as [[a g1] c1]. cbn [fst snd].
  destruct (k a g1) as [[b g2] c2]. reflexivity.
Qed.

Lemma usbPoll_cons e rest g :
  usbPoll (e :: rest) g =
    (value (handle e g) :: value (usbPoll rest (after (handle e g))),
     after (usbPoll rest (after (handle e g))),
     calls (handle e g) ++ calls (usbPoll rest (after (handle e g)))).
Proof.
  cbn [usbPoll]. rewrite bind_unfold. rewrite bind_unfold.
  unfold ret, value, after, calls. cbn [fst snd]. rewrite app_nil_r. reflexivity.
Qed.

Lemma usbPoll_single e g :
  usbPoll [e] g = ([value (handle e g)], after (handle e g), calls (handle e g)).
Proof.
  rewrite usbPoll_cons. cbn [usbPoll ret value after calls fst snd].
  rewrite app_nil_r. reflexivity.
Qed.

Lemma usbPoll_app l1 : forall l2 g,
  usbPoll (l1 ++ l2) g =
    (value (usbPoll l1 g) ++ value (usbPoll l2 (after (usbPoll l1 g))),
     after (usbPoll l2 (after (usbPoll l1 g))),
     calls (usbPoll l1 g) ++ calls (usbPoll l2 (after (usbPoll l1 g)))).
Proof.
  induction l1 as [|e l1 IH]; intros l2 g.
  - cbn [app usbPoll]. unfold ret, value, after, calls. cbn [fst snd app].
    destruct (usbPoll l2 g) as [[v g'] c]. reflexivity.
  - cbn [app]. rewrite !usbPoll_cons. rewrite IH.
    unfold value, after, calls. cbn [fst snd]. rewrite app_assoc. reflexivity.
Qed.

Lemma main_unfold evs g :
  main evs g = (value (usbPoll evs g), after (usbPoll evs g), CallInit :: calls (usbPoll evs g)).
Proof.
  unfold main. rewrite bind_unfold. unfold call, value, after, calls. reflexivity.
Qed.

(** The loop touches [recv_cnt] only. *)
Lemma write_loop_frame data : forall g,
  state (after (write_loop data g)) = state g /\
  recv_len (after (write_loop data g)) = recv_len g /\
  usbMsgPtr (after (write_loop data g)) = usbMsgPtr g.
Proof.
  induction data as [|b rest IH]; intros g.
  - cbn. auto.
  - cbn [write_loop]. rewrite !bind_unfold.
    cbv [get value after calls fst snd].
    destruct (recv_cnt g <? recv_len g).
    + fold (@after unit). rewrite !bind_unfold.
      cbv [call set_recv_cnt value after calls fst snd]. fold (@after unit).
      match goal with |- context [write_loop rest ?g1] => specialize (IH g1) end.
      cbn [state recv_len usbMsgPtr] in IH. exact IH.
    + cbn. auto.
Qed.

Lemma usbFunctionWrite_frame data g :
  state (after (usbFunctionWrite data g)) = state g /\
  recv_len (after (usbFunctionWrite data g)) = recv_len g /\
  usbMsgPtr (after (usbFunctionWrite data g)) = usbMsgPtr g.
Proof.
  unfold usbFunctionWrite. rewrite !bind_unfold.
  cbv [get when call ret value after calls fst snd]. fold (@after unit).
  destruct (_ =? _); apply write_loop_frame.
Qed.

Lemma handle_state e g :
  state (after (handle e g)) =
    if is_valid_hello e then ST_READY
    else if is_bye e then ST_IDLE
    else state g.
Proof.
  destruct e as [rq|data]; cbn [handle is_valid_hello is_bye].
  - destruct (Z.eqb_spec (bRequest rq) CMD_HELLO) as [Hh|Hh].
    { rewrite setup_hello by assumption. cbn [andb].
      destruct (magic_ok rq); [reflexivity|].
      rewrite Hh. reflexivity. }
    cbn [andb].
    destruct (Z.eqb_spec (bRequest rq) CMD_BYE) as [Hb|Hb].
    { rewrite setup_bye by assumption. reflexivity. }
    destruct (Z.eq_dec (bRequest rq) CMD_PROPS) as [Hp|Hp].
    { rewrite setup_props by assumption. destruct (state g =? ST_READY); reflexivity. }
    destruct (Z.eq_dec (bRequest rq) CMD_DATA) as [Hd|Hd].
    { rewrite setup_data by assumption. destruct (state g =? ST_READY); reflexivity. }
    destruct (Z.eq_dec (bRequest rq) CMD_RESET) as [Hr|Hr].
    { rewrite setup_reset by assumption. reflexivity. }
    rewrite setup_unknown by assumption. reflexivity.
  - apply usbFunctionWrite_frame.
Qed.

Lemma poll_keeps_ready post : forall g,
  state g = ST_READY ->
  forallb (fun e => negb (is_bye e)) post = true ->
  state (after (usbPoll post g)) = ST_READY.
Proof.
  induction post as [|e post IH]; intros g Hg Hpost.
  - exact Hg.
  - cbn [forallb] in Hpost. apply andb_true_iff in Hpost as [He Hpost].
    rewrite usbPoll_cons. cbn [after fst snd]. apply IH; [|assumption].
    rewrite handle_state. destruct (is_valid_hello e); [reflexivity|].
    apply negb_true_iff in He. rewrite He. exact Hg.
Qed.

Lemma poll_keeps_idle post : forall g,
  state g = ST_IDLE ->
  forallb (fun e => negb (is_valid_hello e)) post = true ->
  state (after (usbPoll post g)) = ST_IDLE.
Proof.
  induction post as [|e post IH]; intros g Hg Hpost.
  - exact Hg.
  - cbn [forallb] in Hpost. apply andb_true_iff in Hpost as [He Hpost].
    rewrite usbPoll_cons. cbn [after fst snd]. apply IH; [|assumption].
    rewrite handle_state. apply negb_true_iff in He. rewrite He.
    destruct (is_bye e); [reflexivity|exact Hg].
Qed.

Lemma hello_is_not_bye e : is_valid_hello e = true -> is_bye e = false.
Proof.
  destruct e as [rq|data]; cbn; [|reflexivity].
  intros H. apply andb_true_iff in H as [H _]. apply Z.eqb_eq in H.
  rewrite H. reflexivity.
Qed.

Lemma session_open_snoc evs e :
  session_open (evs ++ [e]) <->
  is_valid_hello e = true \/
  (is_valid_hello e = false /\ is_bye e = false /\ session_open evs).
Proof.
  split.
  - intros (pre & h & post & Heq & Hh & Hlast & Hpost).
    induction post as [|e' post' _] using rev_ind.
    + apply app_inj_tail in Heq as [_ <-]. left. exact Hh.
    + rewrite app_comm_cons, app_assoc in Heq.
      apply app_inj_tail in Heq as [-> <-].
      rewrite forallb_app in Hpost, Hlast.
      apply andb_true_iff in Hpost as [Hpost He].
      apply andb_true_iff in Hlast as [Hlast Hn].
      cbn [forallb] in He, Hn. rewrite andb_true_r in He, Hn.
      apply negb_true_iff in He, Hn.
      right. split; [exact Hn|]. split; [exact He|].
      exists pre, h, post'. auto.
  - intros [Hh|(Hn & Hb & pre & h & post & -> & Hh & Hlast & Hpost)].
    + exists evs, e, []. auto.
    + exists pre, h, (post ++ [e]). split; [|split; [exact Hh|split]].
      * rewrite <- app_assoc. reflexivity.
      * rewrite forallb_app, Hlast. cbn [forallb]. rewrite Hn. reflexivity.
      * rewrite forallb_app, Hpost. cbn [forallb]. rewrite Hb. reflexivity.
Qed.

Lemma state_ready_iff evs :
  state (after (usbPoll evs startup)) = ST_READY <-> session_open evs.
Proof.
  induction evs as [|e evs IH] using rev_ind.
  - cbn. split; [discriminate|].
    intros (pre & h & post & Heq & _). destruct pre; discriminate.
  - rewrite usbPoll_app. cbn [after fst snd].
    rewrite usbPoll_single. cbn [after fst snd].
    rewrite handle_state, session_open_snoc.
    destruct (is_valid_hello e) eqn:Hh.
    + split; auto.
    + destruct (is_bye e) eqn:Hb.
      * split; [discriminate|]. intros [H|(_ & H & _)]; discriminate.
      * rewrite IH. split; [auto|]. intros [H|(_ & _ & H)]; [discriminate|exact H].
Qed.

(** * The Nokia 5110 driver *)

Lemma steps_app (l1 l2 : list (avr -> avr)) hw :
  steps (l1 ++ l2) hw = steps l2 (steps l1 hw).
Proof. unfold steps. apply fold_left_app. Qed.

Lemma steps_send_bytes splash (bs : list Z) : forall hw,
  steps (map spi_send_byte bs) hw =
  exec_calls (display splash) (map CallSendByte bs) hw.
Proof.
  induction bs as [|b bs IH]; intros hw; [reflexivity|].
  cbn [map]. unfold steps, exec_calls in *. cbn [fold_left]. apply IH.
Qed.

Lemma u8_land x : u8 x = Z.land x 255.
Proof. unfold u8. change 256 with (2 ^ 8). rewrite <- Z.land_ones by lia. reflexivity. Qed.

(** Clearing a port bit that is already clear changes nothing, whichever
    other bit was cleared in between. *)
Lemma bit_clear_again (p a b : Z) :
  u8 (bit_clear (u8 (bit_clear (u8 (bit_clear p a)) b)) a) =
  u8 (bit_clear (u8 (bit_clear p a)) b).
Proof.
  unfold bit_clear. rewrite !u8_land. apply Z.bits_inj'. intros n Hn.
  rewrite !Z.land_spec.
  destruct (Z.testbit p n), (Z.testbit (Z.lnot (Z.shiftl 1 a)) n),
    (Z.testbit (Z.lnot (Z.shiftl 1 b)) n), (Z.testbit 255 n); reflexivity.
Qed.

Lemma bit_clear_twice (p a : Z) :
  u8 (bit_clear (u8 (bit_clear p a)) a) = u8 (bit_clear p a).
Proof.
  unfold bit_clear. rewrite !u8_land. apply Z.bits_inj'. intros n Hn.
  rewrite !Z.land_spec.
  destruct (Z.testbit p n), (Z.testbit (Z.lnot (Z.shiftl 1 a)) n),
    (Z.testbit 255 n); reflexivity.
Qed.

Lemma pin_low_fixed pin hw :
  pin_low pin hw -> set_PORTB (bit_clear (PORTB hw) pin) hw = hw.
Proof.
  unfold pin_low, set_PORTB. intros ->. destruct hw; reflexivity.
Qed.

Lemma pin_low_send pin b hw : pin_low pin hw -> pin_low pin (spi_send_byte b hw).
Proof. unfold pin_low. cbn [spi_send_byte PORTB]. auto. Qed.

Lemma configure_selected hw :
  pin_low SPI_CS_PIN (nokia5110_configure hw) /\
  pin_low SPI_DC_PIN (nokia5110_configure hw).
Proof.
  unfold nokia5110_configure, steps. cbn [fold_left].
  split; repeat apply pin_low_send;
    unfold pin_low, lcd_command_mode, lcd_spi_enable, spi_dc_low, spi_cs_low,
      set_PORTB; cbn [PORTB].
  - apply bit_clear_again.
  - apply bit_clear_twice.
Qed.

(** [nokia5110_init] is the configuration followed by one full frame sent
    through the frame operations of the driver. *)
Lemma nokia5110_init_sends_frame splash hw :
  nokia5110_init splash hw =
  exec_calls (display splash)
    ([CallFrameStart] ++ map CallSendByte (splash_frame splash) ++ [CallFrameDone])
    (nokia5110_configure hw).
Proof.
  destruct (configure_selected hw) as [Hcs Hdc].
  unfold exec_calls. rewrite !fold_left_app. cbn [fold_left exec_call].
  cbn [display frame_start frame_done send_byte].
  unfold nokia5110_init.
  change [port_setup; spi_init; nokia5110_reset; lcd_spi_enable; lcd_command_mode;
          spi_send_byte 33; spi_send_byte 200; spi_send_byte 6; spi_send_byte 18;
          spi_send_byte 32; spi_send_byte 8; spi_send_byte 12;
          spi_send_byte 128; spi_send_byte 64; lcd_data_mode]
    with ([port_setup; spi_init; nokia5110_reset; lcd_spi_enable; lcd_command_mode;
           spi_send_byte 33; spi_send_byte 200; spi_send_byte 6; spi_send_byte 18;
           spi_send_byte 32; spi_send_byte 8; spi_send_byte 12]
          ++ [spi_send_byte 128; spi_send_byte 64; lcd_data_mode]).
  rewrite <- app_assoc, !steps_app.
  fold nokia5110_configure.
  set (c := nokia5110_configure hw) in *.
  assert (Hstart : steps [spi_send_byte 128; spi_send_byte 64; lcd_data_mode] c
                   = nokia5110_frame_start c).
  { unfold nokia5110_frame_start, steps. cbn [fold_left].
    unfold lcd_spi_enable, spi_cs_low. rewrite (pin_low_fixed _ _ Hcs).
    unfold lcd_command_mode, spi_dc_low. rewrite (pin_low_fixed _ _ Hdc).
    reflexivity. }
  rewrite Hstart. f_equal.
  rewrite (steps_send_bytes splash). unfold exec_calls.
  generalize (nokia5110_frame_start c).
  induction (splash_frame splash) as [|b bs IH]; intros h; [reflexivity|].
  cbn [map fold_left exec_call]. apply IH.
Qed.

Lemma splash_frame_size splash :
  sizeof (splash_frame splash) = X_RES * Y_RES / 8.
Proof.
  unfold splash_frame, sizeof. rewrite length_map, length_seq. reflexivity.
Qed.

(** * Transfer progress over event sequences *)

Lemma accepted_all data g :
  recv_cnt g + sizeof data <= recv_len g -> accepted data g = data.
Proof.
  intros H. unfold accepted, room. apply firstn_all2. unfold sizeof in H. lia.
Qed.

Lemma setup_progress rq g :
  progress_ok g -> progress_ok (after (usbFunctionSetup rq g)).
Proof.
  intros Hg.
  destruct (Z.eq_dec (bRequest rq) CMD_DATA) as [Hd|Hd].
  - rewrite setup_data by assumption.
    destruct (state g =? ST_READY); [|exact Hg].
    unfold progress_ok. cbn. unfold u16.
    pose proof (Z.mod_pos_bound (wLength rq) 65536). lia.
  - destruct (Z.eq_dec (bRequest rq) CMD_HELLO) as [Hh|Hh].
    { rewrite setup_hello by assumption. destruct (magic_ok rq); exact Hg. }
    destruct (Z.eq_dec (bRequest rq) CMD_PROPS) as [Hp|Hp].
    { rewrite setup_props by assumption. destruct (state g =? ST_READY); exact Hg. }
    destruct (Z.eq_dec (bRequest rq) CMD_RESET) as [Hr|Hr].
    { rewrite setup_reset by assumption. exact Hg. }
    destruct (Z.eq_dec (bRequest rq) CMD_BYE) as [Hb|Hb].
    { rewrite setup_bye by assumption. exact Hg. }
    rewrite setup_unknown by assumption. exact Hg.
Qed.

Lemma setup_keeps_progress rq g :
  bRequest rq <> CMD_DATA ->
  recv_cnt (after (usbFunctionSetup rq g)) = recv_cnt g /\
  recv_len (after (usbFunctionSetup rq g)) = recv_len g.
Proof.
  intros Hd.
  destruct (Z.eq_dec (bRequest rq) CMD_HELLO) as [Hh|Hh].
  { rewrite setup_hello by assumption. destruct (magic_ok rq); split; reflexivity. }
  destruct (Z.eq_dec (bRequest rq) CMD_PROPS) as [Hp|Hp].
  { rewrite setup_props by assumption.
    destruct (state g =? ST_READY); split; reflexivity. }
  destruct (Z.eq_dec (bRequest rq) CMD_RESET) as [Hr|Hr].
  { rewrite setup_reset by assumption. split; reflexivity. }
  destruct (Z.eq_dec (bRequest rq) CMD_BYE) as [Hb|Hb].
  { rewrite setup_bye by assumption. split; reflexivity. }
  rewrite setup_unknown by assumption. split; reflexivity.
Qed.

Lemma write_progress data g :
  progress_ok g -> progress_ok (after (usbFunctionWrite data g)).
Proof.
  intros (H0 & H1 & H2).
  rewrite usbFunctionWrite_spec by lia.
  unfold progress_ok. cbn. rewrite sizeof_accepted.
  pose proof (sizeof_nonneg data). lia.
Qed.

Lemma handle_progress e g : progress_ok g -> progress_ok (after (handle e g)).
Proof.
  destruct e; cbn [handle]; [apply setup_progress | apply write_progress].
Qed.

Lemma poll_progress evs : forall g,
  progress_ok g -> progress_ok (after (usbPoll evs g)).
Proof.
  induction evs as [|e evs IH]; intros g Hg; [exact Hg|].
  rewrite usbPoll_cons. cbn [after fst snd]. apply IH, handle_progress, Hg.
Qed.

Lemma startup_progress : progress_ok startup.
Proof. unfold progress_ok. cbn. lia. Qed.

Lemma deliver_spec frags : forall g,
  progress_ok g ->
  Forall (fun f => f <> []) frags ->
  recv_cnt g + sizeof (List.concat frags) <= recv_len g ->
  usbPoll (map Write frags) g =
    (value (usbPoll (map Write frags) g),
     with_recv_cnt (recv_cnt g + sizeof (List.concat frags)) g,
     map CallSendByte (List.concat frags)
       ++ (if completes g frags then [CallFrameDone] else [])).
Proof.
  induction frags as [|f fs IH]; intros g Hg Hne Hfit.
  - cbn [map List.concat usbPoll ret value fst completes app].
    change (sizeof []) with 0. rewrite Z.add_0_r, with_recv_cnt_same. reflexivity.
  - inversion Hne as [|? ? Hf Hfs]; subst.
    cbn [List.concat] in Hfit. rewrite sizeof_app in Hfit.
    pose proof (sizeof_nonneg (List.concat fs)) as Hpos.
    destruct Hg as (H0 & H1 & H2).
    assert (Hacc : accepted f g = f) by (apply accepted_all; lia).
    cbn [map]. rewrite usbPoll_cons. cbn [handle].
    rewrite usbFunctionWrite_spec by lia. rewrite Hacc.
    cbn [value after calls fst snd].
    set (g1 := with_recv_cnt (recv_cnt g + sizeof f) g).
    assert (Hg1 : progress_ok g1).
    { unfold progress_ok, g1. cbn. pose proof (sizeof_nonneg f). lia. }
    assert (Hfit1 : recv_cnt g1 + sizeof (List.concat fs) <= recv_len g1)
      by (unfold g1; cbn; lia).
    rewrite (IH g1 Hg1 Hfs Hfit1). cbn [value after calls fst snd].
    f_equal; [f_equal|].
    + unfold g1. cbn. f_equal. cbn [List.concat]. rewrite sizeof_app. lia.
    + cbn [List.concat completes]. rewrite sizeof_app, map_app, <- !app_assoc. f_equal.
      destruct fs as [|f2 fs'].
      * cbn [List.concat completes map app]. 
        replace (recv_cnt g + (sizeof f + sizeof [])) with (recv_cnt g + sizeof f)
          by (unfold sizeof; cbn; lia).
        destruct (_ =? _); reflexivity.
      * assert (1 <= sizeof (List.concat (f2 :: fs'))).
        { inversion Hfs as [|? ? Hf2 _]; subst. cbn [List.concat].
          rewrite sizeof_app. pose proof (sizeof_nonneg (List.concat fs')).
          destruct f2; [congruence|]. rewrite sizeof_cons.
          pose proof (sizeof_nonneg f2). lia. }
        destruct (Z.eqb_spec (recv_cnt g + sizeof f) (recv_len g)) as [E|E]; [lia|].
        cbn [app completes]. unfold g1. cbn [recv_cnt recv_len with_recv_cnt after set_recv_cnt fst snd].
        rewrite Z.add_assoc. reflexivity.
Qed.

Lemma count_app p l1 l2 : count p (l1 ++ l2) = (count p l1 + count p l2)%nat.
Proof. unfold count. rewrite filter_app, length_app. reflexivity. Qed.

Lemma count_send_bytes bs :
  count is_send_byte (map CallSendByte bs) = List.length bs /\
  count is_frame_done (map CallSendByte bs) = 0%nat /\
  count is_frame_start (map CallSendByte bs) = 0%nat.
Proof.
  unfold count. induction bs as [|b bs (IH1 & IH2 & IH3)]; [auto|].
  cbn [map filter is_send_byte is_frame_done is_frame_start List.length].
  auto.
Qed.

Lemma filter_send_bytes bs :
  filter is_send_byte (map CallSendByte bs) = map CallSendByte bs.
Proof.
  induction bs as [|b bs IH]; [reflexivity|].
  cbn [map filter is_send_byte]. rewrite IH. reflexivity.
Qed.

(** * The session *)

Lemma char20_size s : List.length (char20 s) = 20%nat.
Proof.
  unfold char20. rewrite length_firstn, length_app, repeat_length. lia.
Qed.

Lemma properties_bytes_size p : List.length (properties_bytes p) = 25%nat.
Proof.
  unfold properties_bytes, le16. rewrite !length_app, char20_size. reflexivity.
Qed.

Lemma props_in_ready rq g p :
  bRequest rq = CMD_PROPS -> state g = ST_READY ->
  usbFunctionSetup rq g = (sizeof_properties, with_usbMsgPtr MsgProperties g, []) /\
  answers_properties p (usbFunctionSetup rq g).
Proof.
  intros Hrq Hst. rewrite setup_props by assumption. rewrite Hst.
  cbn [Z.eqb ST_READY Pos.eqb]. split; [reflexivity|].
  split; [reflexivity|].
  unfold response, message.
  cbn [value after fst snd with_usbMsgPtr set_usbMsgPtr usbMsgPtr].
  change (sizeof_properties =? USB_NO_MSG) with false. cbv iota.
  apply firstn_all2. rewrite properties_bytes_size. reflexivity.
Qed.

Lemma rejected_outside_ready rq g p :
  bRequest rq = CMD_PROPS \/ bRequest rq = CMD_DATA -> state g <> ST_READY ->
  usbFunctionSetup rq g = (0, g, []) /\ response p (usbFunctionSetup rq g) = [].
Proof.
  intros Hrq Hst. apply Z.eqb_neq in Hst.
  assert (H : usbFunctionSetup rq g = (0, g, [])).
  { destruct Hrq as [Hrq|Hrq];
      [rewrite setup_props by assumption | rewrite setup_data by assumption];
      rewrite Hst; reflexivity. }
  rewrite H. split; reflexivity.
Qed.

(** C1: for every event sequence served from start-up, a QueryProperties
    request is answered with the properties record exactly when some valid
    Hello has not been followed by a Bye; and after a Bye that no valid Hello
    follows, QueryProperties and Data requests return 0, change nothing and
    call nothing. *)
Theorem query_properties_iff_session_open :
  forall (evs : list usb_event) (rq : usbRequest_t) (p : properties_t),
    bRequest rq = CMD_PROPS ->
    let g := after (main evs startup) in
    (answers_properties p (usbFunctionSetup rq g) <-> session_open evs) /\
    (forall pre bye post q,
        evs = pre ++ bye :: post ->
        is_bye bye = true ->
        forallb (fun e => negb (is_valid_hello e)) post = true ->
        bRequest q = CMD_PROPS \/ bRequest q = CMD_DATA ->
        usbFunctionSetup q g = (0, g, []) /\
        response p (usbFunctionSetup q g) = []).
Proof.
  intros evs rq p Hrq g.
  assert (Hg : g = after (usbPoll evs startup)).
  { unfold g. rewrite main_unfold. reflexivity. }
  split.
  - rewrite <- state_ready_iff, <- Hg. split.
    + intros [Hv _]. rewrite setup_props in Hv by assumption.
      destruct (Z.eqb_spec (state g) ST_READY); [assumption|discriminate].
    + intros Hst. apply props_in_ready; assumption.
  - intros pre bye post q -> Hbye Hpost Hq.
    apply rejected_outside_ready; [assumption|].
    rewrite Hg. change (pre ++ bye :: post) with (pre ++ [bye] ++ post).
    rewrite app_assoc, usbPoll_app. cbn [after fst snd].
    rewrite poll_keeps_idle; [discriminate| |assumption].
    rewrite usbPoll_app. cbn [after fst snd]. rewrite usbPoll_cons.
    cbn [after fst snd usbPoll ret]. rewrite handle_state, Hbye.
    destruct (is_valid_hello bye) eqn:Hh; [|reflexivity].
    apply hello_is_not_bye in Hh. congruence.
Qed.

Lemma query_properties_iff_session_open_witness :
  answers_properties nokia5110_properties
    (usbFunctionSetup (request CMD_PROPS 0 0 25)
       (after (main [Hello HELLO_VALUE HELLO_INDEX; Data 3] startup))) /\
  usbFunctionSetup (request CMD_PROPS 0 0 25)
    (after (main [Hello HELLO_VALUE HELLO_INDEX; Bye; Reset] startup)) =
  (0, after (main [Hello HELLO_VALUE HELLO_INDEX; Bye; Reset] startup), []).
Proof.
  split.
  - apply (query_properties_iff_session_open
             [Hello HELLO_VALUE HELLO_INDEX; Data 3]
             (request CMD_PROPS 0 0 25) nokia5110_properties eq_refl).
    exists [], (Hello HELLO_VALUE HELLO_INDEX), [Data 3].
    repeat split; reflexivity.
  - apply (query_properties_iff_session_open
             [Hello HELLO_VALUE HELLO_INDEX; Bye; Reset]
             (request CMD_PROPS 0 0 25) nokia5110_properties eq_refl)
      with (pre := [Hello HELLO_VALUE HELLO_INDEX]) (bye := Bye) (post := [Reset]);
      [reflexivity | reflexivity | reflexivity | left; reflexivity].
Defined.

(** C3: a Hello request makes the device Ready and is answered with the
    banner, the sixteen bytes of "RUDY usbxbm 1.0" with its terminator,
    exactly when wValue is 0x4d6f and wIndex is 0x6921; with any other pair
    the globals stay as they are, nothing is called and the answer is
    empty. *)
Theorem hello_accepted_iff_magic :
  forall (g : globals) (rq : usbRequest_t) (p : properties_t),
    bRequest rq = CMD_HELLO ->
    let r := usbFunctionSetup rq g in
    ((state (after r) = ST_READY /\ answers_banner p r) <->
     (wValue rq = 0x4d6f /\ wIndex rq = 0x6921)) /\
    (~ (wValue rq = 0x4d6f /\ wIndex rq = 0x6921) ->
     r = (0, g, []) /\ response p r = []) /\
    banner = c_chars "RUDY usbxbm 1.0" ++ [0] /\
    sizeof banner = 16.
Proof.
  intros g rq p Hrq r. unfold r. rewrite setup_hello by assumption.
  change 0x4d6f with HELLO_VALUE. change 0x6921 with HELLO_INDEX.
  rewrite <- magic_ok_iff.
  destruct (magic_ok rq).
  - split; [|split; [|split; reflexivity]].
    + split; [reflexivity|]. intros _.
      split; [reflexivity|]. split; reflexivity.
    + intros H. exfalso. apply H. reflexivity.
  - split; [|split; [|split; reflexivity]].
    + split; [|discriminate]. intros [_ [Hv _]]. discriminate Hv.
    + intros _. split; reflexivity.
Qed.

Lemma hello_accepted_iff_magic_witness :
  state (after (usbFunctionSetup (request CMD_HELLO 0x4d6f 0x6921 16) startup)) = ST_READY /\
  answers_banner nokia5110_properties
    (usbFunctionSetup (request CMD_HELLO 0x4d6f 0x6921 16) startup) /\
  usbFunctionSetup (request CMD_HELLO 0x4d6f 0x6920 16) ready = (0, ready, []).
Proof.
  split; [|split].
  - apply (hello_accepted_iff_magic startup (request CMD_HELLO 0x4d6f 0x6921 16)
             nokia5110_properties eq_refl).
    split; reflexivity.
  - apply (hello_accepted_iff_magic startup (request CMD_HELLO 0x4d6f 0x6921 16)
             nokia5110_properties eq_refl).
    split; reflexivity.
  - apply (hello_accepted_iff_magic ready (request CMD_HELLO 0x4d6f 0x6920 16)
             nokia5110_properties eq_refl).
    intros [_ H]. discriminate H.
Defined.

(** * The frame receiver and the Data command *)

Lemma data_then_chunks g rq frags :
  bRequest rq = CMD_DATA -> state g = ST_READY ->
  0 <= wLength rq < 65536 ->
  nonempty_chunks frags ->
  sizeof (List.concat frags) <= wLength rq ->
  calls (usbPoll (Setup rq :: map Write frags) g) =
    CallFrameStart :: map CallSendByte (List.concat frags)
      ++ (if match frags with [] => false | _ => sizeof (List.concat frags) =? wLength rq end
          then [CallFrameDone] else []).
Proof.
  intros Hrq Hst Hlen Hne Hfit.
  rewrite usbPoll_cons. cbn [handle calls snd].
  rewrite setup_data by assumption. rewrite Hst.
  cbn [Z.eqb ST_READY Pos.eqb after fst snd app].
  assert (Hu : u16 (wLength rq) = wLength rq) by (apply Z.mod_small; lia).
  rewrite Hu.
  set (g1 := with_recv_len (wLength rq) (with_recv_cnt 0 g)).
  rewrite (deliver_spec frags g1).
  - cbn [snd]. unfold completes, g1. cbn [recv_cnt recv_len with_recv_len
      with_recv_cnt after set_recv_len set_recv_cnt fst snd]. cbn [Z.add]. reflexivity.
  - unfold progress_ok, g1. cbn. lia.
  - exact Hne.
  - unfold g1. cbn. lia.
Qed.

(** C2, for a declared length of at least one: after a Data request accepted
    in Ready, chunks of at least one byte each that together carry no more
    than the declared length give one send_byte call per byte, in the order
    delivered; frame_done is called once, after the last send_byte, when the
    bytes add up to the declared length, and not at all when they add up to
    less. *)
Theorem chunked_delivery :
  forall (g : globals) (rq : usbRequest_t) (frags : list (list Z)),
    bRequest rq = CMD_DATA ->
    state g = ST_READY ->
    1 <= wLength rq < 65536 ->
    nonempty_chunks frags ->
    sizeof (List.concat frags) <= wLength rq ->
    let trace := calls (usbPoll (Setup rq :: map Write frags) g) in
    let complete := sizeof (List.concat frags) =? wLength rq in
    trace = CallFrameStart :: map CallSendByte (List.concat frags)
              ++ (if complete then [CallFrameDone] else []) /\
    count is_send_byte trace = List.length (List.concat frags) /\
    count is_frame_done trace = (if complete then 1%nat else 0%nat).
Proof.
  intros g rq frags Hrq Hst Hlen Hne Hfit trace complete.
  assert (Htrace : trace = CallFrameStart :: map CallSendByte (List.concat frags)
                     ++ (if complete then [CallFrameDone] else [])).
  { unfold trace. rewrite data_then_chunks by (assumption || lia).
    destruct frags as [|f fs]; [|reflexivity].
    unfold complete. cbn [List.concat]. change (sizeof []) with 0.
    destruct (Z.eqb_spec 0 (wLength rq)); [lia|reflexivity]. }
  split; [exact Htrace|].
  rewrite Htrace.
  change (CallFrameStart :: ?l) with ([CallFrameStart] ++ l).
  rewrite !count_app.
  destruct (count_send_bytes (List.concat frags)) as (-> & -> & _).
  destruct complete; split; cbn; lia.
Qed.

Lemma chunked_delivery_witness :
  calls (usbPoll (Data 3 :: map Write [[7; 8]; [9]]) ready) =
    [CallFrameStart; CallSendByte 7; CallSendByte 8; CallSendByte 9; CallFrameDone] /\
  count is_frame_done (calls (usbPoll (Data 3 :: map Write [[7; 8]]) ready)) = 0%nat.
Proof.
  split.
  - apply (chunked_delivery ready (request CMD_DATA 0 0 3) [[7; 8]; [9]]);
      [reflexivity | reflexivity | cbn; lia | repeat constructor; discriminate
      | vm_compute; discriminate].
  - apply (chunked_delivery ready (request CMD_DATA 0 0 3) [[7; 8]]);
      [reflexivity | reflexivity | cbn; lia | repeat constructor; discriminate
      | vm_compute; discriminate].
Defined.

(** With a declared length of zero there is no chunk to deliver, and
    frame_done is not called: the count is 0, not 1. *)
Lemma zero_length_without_delivery :
  state ready = ST_READY /\
  nonempty_chunks [] /\
  sizeof (List.concat (@nil (list Z))) = 0 /\
  calls (usbPoll (Data 0 :: map Write []) ready) = [CallFrameStart] /\
  count is_frame_done (calls (usbPoll (Data 0 :: map Write []) ready)) <> 1%nat.
Proof.
  repeat split; try constructor. vm_compute. discriminate.
Qed.

(** C4: in every state reached from start-up, recv_cnt is at most recv_len;
    a delivery passes on only the bytes of the chunk that still fit, counts
    exactly those, and ignores the rest; when the transfer is complete a
    delivery passes on nothing and leaves recv_cnt as it is; and no request
    other than Data changes the two counters. *)
Theorem transfer_progress_invariant :
  forall (evs : list usb_event) (data : list Z),
    let g := after (main evs startup) in
    let r := usbFunctionWrite data g in
    (0 <= recv_cnt g /\ recv_cnt g <= recv_len g /\ recv_len g <= 65535) /\
    filter is_send_byte (calls r) = map CallSendByte (firstn (room g) data) /\
    recv_cnt (after r) = recv_cnt g + sizeof (firstn (room g) data) /\
    recv_cnt (after r) <= recv_len (after r) /\
    (recv_cnt g = recv_len g ->
     count is_send_byte (calls r) = 0%nat /\ recv_cnt (after r) = recv_cnt g) /\
    (forall rq, bRequest rq <> CMD_DATA ->
     recv_cnt (after (usbFunctionSetup rq g)) = recv_cnt g /\
     recv_len (after (usbFunctionSetup rq g)) = recv_len g).
Proof.
  intros evs data g r.
  assert (Hg : progress_ok g).
  { unfold g. rewrite main_unfold. apply poll_progress, startup_progress. }
  pose proof (write_progress data g Hg) as Hr. fold r in Hr.
  destruct Hg as (H0 & H1 & H2).
  assert (Hspec := usbFunctionWrite_spec data g H0 H2). cbv zeta in Hspec.
  fold r in Hspec. fold (accepted data g).
  assert (Hsends : filter is_send_byte (calls r) = map CallSendByte (accepted data g)).
  { rewrite Hspec. cbn [calls snd]. rewrite filter_app.
    assert (Hdone : forall b : bool,
               filter is_send_byte (if b then [CallFrameDone] else []) = [])
      by (intros []; reflexivity).
    rewrite Hdone, app_nil_r. apply filter_send_bytes. }
  assert (Hcnt : recv_cnt (after r) = recv_cnt g + sizeof (accepted data g))
    by (rewrite Hspec; reflexivity).
  repeat split; try assumption; try apply Hr.
  - unfold count. rewrite Hsends. unfold accepted, room.
    replace (recv_len g - recv_cnt g) with 0 by lia. reflexivity.
  - rewrite Hcnt. unfold accepted, room.
    replace (recv_len g - recv_cnt g) with 0 by lia. cbn. lia.
  - apply setup_keeps_progress; assumption.
  - apply setup_keeps_progress; assumption.
Qed.

Lemma transfer_progress_invariant_witness :
  let g := after (main [Hello HELLO_VALUE HELLO_INDEX; Data 2; Write [5; 6; 7]] startup) in
  recv_cnt g = recv_len g /\
  count is_send_byte (calls (usbFunctionWrite [8; 9] g)) = 0%nat /\
  recv_cnt (after (usbFunctionWrite [8; 9] g)) = recv_cnt g.
Proof.
  intros g. split; [reflexivity|].
  apply (transfer_progress_invariant
           [Hello HELLO_VALUE HELLO_INDEX; Data 2; Write [5; 6; 7]] [8; 9]).
  reflexivity.
Defined.

Lemma write_when_complete data g :
  recv_cnt g = recv_len g -> usbFunctionWrite data g = (1, g, [CallFrameDone]).
Proof.
  intros Heq. unfold usbFunctionWrite.
  assert (Hloop : write_loop data g = (tt, g, [])).
  { destruct data as [|b rest]; [reflexivity|].
    cbn [write_loop]. run_handler. rewrite Heq, Z.ltb_irrefl. reflexivity. }
  rewrite bind_unfold, Hloop. run_handler. rewrite Heq, Z.eqb_refl. reflexivity.
Qed.

(** A Data request with length zero only starts the frame: it returns
    USB_NO_MSG and frame_done has not been called. *)
Lemma zero_length_data_only_starts_frame :
  usbFunctionSetup (request CMD_DATA 0 0 0) ready =
    (USB_NO_MSG, with_recv_len 0 (with_recv_cnt 0 ready), [CallFrameStart]) /\
  calls (usbFunctionSetup (request CMD_DATA 0 0 0) ready)
    <> [CallFrameStart; CallFrameDone].
Proof.
  split; [reflexivity|]. vm_compute. discriminate.
Qed.

(** C5, with the delivery that ends the frame: a Data request of length zero
    accepted in Ready calls frame_start and returns USB_NO_MSG; the first
    delivery after it, whatever it carries, calls frame_done and no
    send_byte, and reports the transfer complete. *)
Theorem zero_length_transfer :
  forall (g : globals) (rq : usbRequest_t) (data : list Z),
    bRequest rq = CMD_DATA ->
    wLength rq = 0 ->
    state g = ST_READY ->
    let r := usbFunctionSetup rq g in
    r = (USB_NO_MSG, with_recv_len 0 (with_recv_cnt 0 g), [CallFrameStart]) /\
    usbFunctionWrite data (after r) = (1, after r, [CallFrameDone]) /\
    calls (usbPoll [Setup rq; Write data] g) = [CallFrameStart; CallFrameDone].
Proof.
  intros g rq data Hrq Hlen Hst r.
  assert (Hr : r = (USB_NO_MSG, with_recv_len 0 (with_recv_cnt 0 g), [CallFrameStart])).
  { unfold r. rewrite setup_data by assumption. rewrite Hst, Hlen. reflexivity. }
  assert (Hw : usbFunctionWrite data (after r) = (1, after r, [CallFrameDone])).
  { apply write_when_complete. rewrite Hr. reflexivity. }
  split; [exact Hr|]. split; [exact Hw|].
  rewrite !usbPoll_cons. cbn [handle usbPoll ret calls after snd fst].
  fold r. change (snd (fst r)) with (after r). rewrite Hw, Hr. reflexivity.
Qed.

Lemma zero_length_transfer_witness :
  calls (usbPoll [Data 0; Write [1; 2; 3]] ready) = [CallFrameStart; CallFrameDone].
Proof.
  apply (zero_length_transfer ready (request CMD_DATA 0 0 0) [1; 2; 3]);
    reflexivity.
Defined.

(** C8: a Data request accepted while the previous transfer is incomplete
    sets recv_len to the new length and recv_cnt to 0 and calls frame_start
    and nothing else; and when a transfer that got fewer bytes than declared
    is superseded by a new Data request, the whole trace holds two
    frame_start calls and no frame_done. *)
Theorem data_supersedes_incomplete_transfer :
  forall (g : globals) (rq : usbRequest_t),
    bRequest rq = CMD_DATA ->
    state g = ST_READY ->
    recv_cnt g < recv_len g ->
    0 <= wLength rq < 65536 ->
    usbFunctionSetup rq g =
      (USB_NO_MSG,
       {| state := state g; recv_len := wLength rq; recv_cnt := 0;
          usbMsgPtr := usbMsgPtr g |},
       [CallFrameStart]) /\
    (forall (rq0 : usbRequest_t) (frags : list (list Z)),
        bRequest rq0 = CMD_DATA ->
        0 <= wLength rq0 < 65536 ->
        nonempty_chunks frags ->
        sizeof (List.concat frags) < wLength rq0 ->
        let trace := calls (usbPoll (Setup rq0 :: map Write frags ++ [Setup rq]) g) in
        trace = CallFrameStart :: map CallSendByte (List.concat frags)
                  ++ [CallFrameStart] /\
        count is_frame_done trace = 0%nat).
Proof.
  intros g rq Hrq Hst Hlt Hlen.
  assert (Hu : u16 (wLength rq) = wLength rq) by (apply Z.mod_small; lia).
  split.
  - rewrite setup_data by assumption. rewrite Hu.
    destruct (Z.eqb_spec (state g) ST_READY); [reflexivity|contradiction].
  - intros rq0 frags Hrq0 Hlen0 Hne Hunder trace.
    assert (Htrace : trace = CallFrameStart :: map CallSendByte (List.concat frags)
                       ++ [CallFrameStart]).
    { assert (Hkeep : state (after (usbPoll (Setup rq0 :: map Write frags) g)) = ST_READY).
      { apply poll_keeps_ready; [exact Hst|].
        cbn [forallb is_bye]. rewrite Hrq0. cbn [Z.eqb CMD_DATA CMD_BYE Pos.eqb negb andb].
        clear. induction frags; [reflexivity|]. cbn. assumption. }
      unfold trace. rewrite app_comm_cons, usbPoll_app. cbn [calls snd].
      change (snd ?x) with (calls x).
      rewrite data_then_chunks by (assumption || lia).
      replace (match frags with [] => false | _ => _ end) with false.
      2:{ destruct frags; [reflexivity|]. symmetry. apply Z.eqb_neq. lia. }
      rewrite app_nil_r. cbn [app]. f_equal. f_equal.
      rewrite usbPoll_single. cbn [handle calls snd].
      rewrite setup_data by assumption. rewrite Hkeep. reflexivity. }
    split; [exact Htrace|]. rewrite Htrace.
    change (CallFrameStart :: ?l) with ([CallFrameStart] ++ l).
    rewrite !count_app.
    destruct (count_send_bytes (List.concat frags)) as (_ & -> & _). reflexivity.
Qed.

Lemma data_supersedes_incomplete_transfer_witness :
  let g := after (usbPoll [Data 4; Write [1; 2]] ready) in
  usbFunctionSetup (request CMD_DATA 0 0 6) g =
    (USB_NO_MSG,
     {| state := ST_READY; recv_len := 6; recv_cnt := 0; usbMsgPtr := MsgBanner |},
     [CallFrameStart]) /\
  calls (usbPoll (Data 4 :: map Write [[1; 2]] ++ [Data 6]) g) =
    [CallFrameStart; CallSendByte 1; CallSendByte 2; CallFrameStart].
Proof.
  intros g.
  destruct (data_supersedes_incomplete_transfer g (request CMD_DATA 0 0 6))
    as [H1 H2]; [reflexivity | reflexivity | reflexivity | cbn; lia |].
  split; [exact H1|].
  apply (H2 (request CMD_DATA 0 0 4) [[1; 2]]);
    [reflexivity | cbn; lia | repeat constructor; discriminate | reflexivity].
Defined.

(** C9: a Reset request returns 0 and leaves every global as it is, session
    state and transfer progress included; it calls init when the state is
    ST_READY and calls nothing otherwise. *)
Theorem reset_reinitializes_in_ready :
  forall (g : globals) (rq : usbRequest_t) (p : properties_t),
    bRequest rq = CMD_RESET ->
    let r := usbFunctionSetup rq g in
    (state g = ST_READY -> r = (0, g, [CallInit])) /\
    (state g <> ST_READY -> r = (0, g, [])) /\
    after r = g /\
    response p r = [].
Proof.
  intros g rq p Hrq r. unfold r. rewrite setup_reset by assumption.
  repeat split.
  - intros ->. reflexivity.
  - intros H. apply Z.eqb_neq in H. rewrite H. reflexivity.
Qed.

Lemma reset_reinitializes_in_ready_witness :
  usbFunctionSetup (request CMD_RESET 0 0 0) ready = (0, ready, [CallInit]) /\
  usbFunctionSetup (request CMD_RESET 0 0 0) startup = (0, startup, []).
Proof.
  split.
  - apply (reset_reinitializes_in_ready ready (request CMD_RESET 0 0 0)
             nokia5110_properties eq_refl). reflexivity.
  - apply (reset_reinitializes_in_ready startup (request CMD_RESET 0 0 0)
             nokia5110_properties eq_refl). discriminate.
Defined.

(** C10: a delivery made when recv_cnt equals recv_len calls no send_byte
    and leaves the globals as they are, calls frame_done and returns 1; any
    number of such deliveries in a row calls frame_done once each. *)
Theorem delivery_after_completion :
  forall (g : globals) (data : list Z) (more : list (list Z)),
    recv_cnt g = recv_len g ->
    usbFunctionWrite data g = (1, g, [CallFrameDone]) /\
    calls (usbPoll (map Write more) g) = repeat CallFrameDone (List.length more) /\
    after (usbPoll (map Write more) g) = g.
Proof.
  intros g data more Heq. split; [apply write_when_complete, Heq|].
  induction more as [|d more [IHc IHa]]; [split; reflexivity|].
  cbn [map]. rewrite usbPoll_cons. cbn [handle calls after fst snd].
  rewrite (write_when_complete d g Heq). unfold calls, after in *.
  cbn [fst snd app List.length repeat].
  split; [f_equal; exact IHc | exact IHa].
Qed.

Lemma delivery_after_completion_witness :
  usbFunctionWrite [1; 2] ready = (1, ready, [CallFrameDone]) /\
  calls (usbPoll (map Write [[1]; []; [2; 3]]) ready) =
    [CallFrameDone; CallFrameDone; CallFrameDone].
Proof.
  destruct (delivery_after_completion ready [1; 2] [[1]; []; [2; 3]] eq_refl)
    as (H1 & H2 & _).
  split; [exact H1 | exact H2].
Defined.

(** * Hello, QueryProperties and the display *)

(** C6: a Hello request with the magic pair is answered with the banner and
    leaves the device Ready; when the state was not ST_IDLE the handler calls
    the display's init on the way, and from ST_IDLE it calls nothing.  On the
    Nokia 5110 the init call shows as a full frame written between
    frame_start and frame_done: after the configuration commands it does
    what frame_start, one send_byte for each of the X_RES * Y_RES / 8 splash
    bytes, and frame_done do. *)
Theorem hello_in_ready_reinitializes :
  forall (g : globals) (rq : usbRequest_t) (p : properties_t),
    bRequest rq = CMD_HELLO ->
    wValue rq = HELLO_VALUE ->
    wIndex rq = HELLO_INDEX ->
    let r := usbFunctionSetup rq g in
    answers_banner p r /\
    state (after r) = ST_READY /\
    (state g <> ST_IDLE -> calls r = [CallInit]) /\
    (state g = ST_IDLE -> calls r = []) /\
    (forall (splash : nat -> Z) (hw : avr),
        exec_calls (display splash) [CallInit] hw =
        exec_calls (display splash)
          ([CallFrameStart] ++ map CallSendByte (splash_frame splash)
             ++ [CallFrameDone])
          (nokia5110_configure hw) /\
        sizeof (splash_frame splash) = X_RES * Y_RES / 8).
Proof.
  intros g rq p Hrq Hv Hi r. unfold r.
  rewrite setup_hello by assumption.
  assert (Hm : magic_ok rq = true) by (apply magic_ok_iff; auto).
  rewrite Hm. cbn [calls after snd fst].
  split; [split; reflexivity|]. split; [reflexivity|].
  split; [|split].
  - intros H. apply Z.eqb_neq in H. rewrite H. reflexivity.
  - intros ->. reflexivity.
  - intros splash hw. split; [|apply splash_frame_size].
    rewrite <- nokia5110_init_sends_frame. reflexivity.
Qed.

Lemma hello_in_ready_reinitializes_witness :
  calls (usbFunctionSetup (request CMD_HELLO HELLO_VALUE HELLO_INDEX 16) ready)
    = [CallInit] /\
  calls (usbFunctionSetup (request CMD_HELLO HELLO_VALUE HELLO_INDEX 16) startup)
    = [].
Proof.
  split.
  - apply (hello_in_ready_reinitializes ready
             (request CMD_HELLO HELLO_VALUE HELLO_INDEX 16) nokia5110_properties
             eq_refl eq_refl eq_refl).
    discriminate.
  - apply (hello_in_ready_reinitializes startup
             (request CMD_HELLO HELLO_VALUE HELLO_INDEX 16) nokia5110_properties
             eq_refl eq_refl eq_refl).
    reflexivity.
Defined.

(** C7: in Ready a QueryProperties request returns the size of the
    properties struct with usbMsgPtr at the struct, so the answer is its 25
    bytes: res_x and res_y as 16-bit values, low byte first, color_bits as one
    byte, and the 20 bytes of the identifier; nothing else changes and
    nothing is called.  For the Nokia 5110 the record is 84, 48, 1 and
    "Nokia 5110". *)
Theorem query_properties_record :
  forall (g : globals) (rq : usbRequest_t) (p : properties_t),
    bRequest rq = CMD_PROPS ->
    state g = ST_READY ->
    let r := usbFunctionSetup rq g in
    r = (sizeof_properties, with_usbMsgPtr MsgProperties g, []) /\
    response p r = properties_bytes p /\
    properties_bytes p =
      le16 (res_x p) ++ le16 (res_y p) ++ [u8 (color_bits p)]
        ++ char20 (identifier p) /\
    List.length (properties_bytes p) = 25%nat /\
    List.length (char20 (identifier p)) = 20%nat /\
    (forall splash : nat -> Z,
        properties (display splash) =
          {| res_x := 84; res_y := 48; color_bits := 1;
             identifier := "Nokia 5110" |} /\
        properties_bytes (properties (display splash)) =
          [84; 0; 48; 0; 1] ++ c_chars "Nokia 5110" ++ repeat 0 10%nat).
Proof.
  intros g rq p Hrq Hst r.
  destruct (props_in_ready rq g p Hrq Hst) as [Hr [_ Hresp]].
  split; [exact Hr|]. split; [exact Hresp|]. split; [reflexivity|].
  split; [apply properties_bytes_size|]. split; [apply char20_size|].
  intros splash. split; reflexivity.
Qed.

Lemma query_properties_record_witness :
  response nokia5110_properties
    (usbFunctionSetup (request CMD_PROPS 0 0 25) ready) =
  [84; 0; 48; 0; 1; 78; 111; 107; 105; 97; 32; 53; 49; 49; 48;
   0; 0; 0; 0; 0; 0; 0; 0; 0; 0].
Proof.
  destruct (query_properties_record ready (request CMD_PROPS 0 0 25)
              nokia5110_properties eq_refl eq_refl) as (_ & H & _).
  rewrite H. reflexivity.
Defined.

(** * Further properties of main.c *)

Lemma setup_cases rq g :
  (bRequest rq = CMD_HELLO /\
   usbFunctionSetup rq g =
     if magic_ok rq
     then (sizeof banner, with_usbMsgPtr MsgBanner (with_state ST_READY g),
           if state g =? ST_IDLE then [] else [CallInit])
     else (0, g, [])) \/
  (bRequest rq = CMD_PROPS /\
   usbFunctionSetup rq g =
     if state g =? ST_READY
     then (sizeof_properties, with_usbMsgPtr MsgProperties g, [])
     else (0, g, [])) \/
  (bRequest rq = CMD_DATA /\
   usbFunctionSetup rq g =
     if state g =? ST_READY
     then (USB_NO_MSG, with_recv_len (u16 (wLength rq)) (with_recv_cnt 0 g),
           [CallFrameStart])
     else (0, g, [])) \/
  (bRequest rq = CMD_RESET /\
   usbFunctionSetup rq g = (0, g, if state g =? ST_READY then [CallInit] else [])) \/
  (bRequest rq = CMD_BYE /\
   usbFunctionSetup rq g = (0, with_state ST_IDLE g, [])) \/
  (known_command (bRequest rq) = false /\ usbFunctionSetup rq g = (0, g, [])).
Proof.
  destruct (Z.eq_dec (bRequest rq) CMD_HELLO) as [Hh|Hh];
    [left; split; [assumption|apply setup_hello; assumption]|right].
  destruct (Z.eq_dec (bRequest rq) CMD_PROPS) as [Hp|Hp];
    [left; split; [assumption|apply setup_props; assumption]|right].
  destruct (Z.eq_dec (bRequest rq) CMD_DATA) as [Hd|Hd];
    [left; split; [assumption|apply setup_data; assumption]|right].
  destruct (Z.eq_dec (bRequest rq) CMD_RESET) as [Hr|Hr];
    [left; split; [assumption|apply setup_reset; assumption]|right].
  destruct (Z.eq_dec (bRequest rq) CMD_BYE) as [Hb|Hb];
    [left; split; [assumption|apply setup_bye; assumption]|right].
  split; [|apply setup_unknown; assumption].
  unfold known_command. apply Z.eqb_neq in Hh, Hp, Hd, Hr, Hb.
  rewrite Hh, Hp, Hd, Hr, Hb. reflexivity.
Qed.

(** X1: a device in ST_IDLE ignores every request that is not a Hello with
    the magic pair: the handler returns 0, leaves all globals as they are and
    calls nothing on the display. *)
Theorem idle_ignores_all_but_hello :
  forall (g : globals) (rq : usbRequest_t),
    state g = ST_IDLE ->
    is_valid_hello (Setup rq) = false ->
    usbFunctionSetup rq g = (0, g, []).
Proof.
  intros g rq Hst Hnot. cbn [is_valid_hello] in Hnot.
  destruct (setup_cases rq g) as [[Hc ->]|[[Hc ->]|[[Hc ->]|[[Hc ->]|[[Hc ->]|[Hc ->]]]]]];
    rewrite ?Hst; try reflexivity.
  - rewrite Hc, Z.eqb_refl in Hnot. cbn [andb] in Hnot. rewrite Hnot. reflexivity.
  - destruct g as [s l c m]. cbn in Hst. subst s. reflexivity.
Qed.

Lemma idle_ignores_all_but_hello_witness :
  usbFunctionSetup (request CMD_DATA 0 0 504) startup = (0, startup, []).
Proof.
  apply (idle_ignores_all_but_hello startup (request CMD_DATA 0 0 504));
    reflexivity.
Defined.

(** X2: a request whose code is none of the five commands returns 0, leaves
    all globals as they are and calls nothing, in every state; wherever it
    stands among other events, the display calls and the globals at the end
    are the same as without it. *)
Theorem unknown_request_is_transparent :
  forall (g : globals) (rq : usbRequest_t) (pre post : list usb_event),
    known_command (bRequest rq) = false ->
    usbFunctionSetup rq g = (0, g, []) /\
    calls (usbPoll (pre ++ Setup rq :: post) g) = calls (usbPoll (pre ++ post) g) /\
    after (usbPoll (pre ++ Setup rq :: post) g) = after (usbPoll (pre ++ post) g).
Proof.
  intros g rq pre post H.
  assert (Hrq : forall g0, usbFunctionSetup rq g0 = (0, g0, [])).
  { intros g0. unfold known_command in H.
    repeat (apply orb_false_iff in H; destruct H as [H ?]).
    apply setup_unknown; apply Z.eqb_neq; assumption. }
  split; [apply Hrq|].
  rewrite !usbPoll_app. cbn [calls after fst snd].
  rewrite usbPoll_cons. cbn [handle calls after fst snd].
  rewrite Hrq. cbn [fst snd app]. split; reflexivity.
Qed.

Lemma unknown_request_is_transparent_witness :
  calls (usbPoll ([Data 2; Write [1]] ++
           Setup (request 0x56 HELLO_VALUE HELLO_INDEX 16) :: [Write [2]]) ready) =
  [CallFrameStart; CallSendByte 1; CallSendByte 2; CallFrameDone].
Proof.
  destruct (unknown_request_is_transparent ready
              (request 0x56 HELLO_VALUE HELLO_INDEX 16) [Data 2; Write [1]] [Write [2]]
              eq_refl) as (_ & H & _).
  rewrite H. reflexivity.
Defined.

(** X3: the handler returns USB_NO_MSG exactly for a Data request taken in
    ST_READY, which is also exactly when it calls frame_start; every other
    return value is 0, the size of the banner or the size of the properties,
    and comes with no frame_start call. *)
Theorem bulk_write_announced_iff_frame_started :
  forall (g : globals) (rq : usbRequest_t),
    let r := usbFunctionSetup rq g in
    (value r = USB_NO_MSG <-> bRequest rq = CMD_DATA /\ state g = ST_READY) /\
    (value r = USB_NO_MSG <-> calls r = [CallFrameStart]) /\
    (value r <> USB_NO_MSG ->
     (value r = 0 \/ value r = sizeof banner \/ value r = sizeof_properties) /\
     count is_frame_start (calls r) = 0%nat).
Proof.
  intros g rq r. unfold r.
  destruct (setup_cases rq g) as [[Hc ->]|[[Hc ->]|[[Hc ->]|[[Hc ->]|[[Hc ->]|[Hc ->]]]]]].
  - destruct (magic_ok rq), (state g =? ST_IDLE); cbn [value calls fst snd];
      (split; [split; [discriminate|intros [H _]; rewrite Hc in H; discriminate]|]);
      (split; [split; discriminate|]); intros _; split; auto.
  - destruct (state g =? ST_READY); cbn [value calls fst snd];
      (split; [split; [discriminate|intros [H _]; rewrite Hc in H; discriminate]|]);
      (split; [split; discriminate|]); intros _; split; auto.
  - destruct (Z.eqb_spec (state g) ST_READY) as [Hs|Hs]; cbn [value calls fst snd].
    + split; [split; auto|]. split; [split; auto|]. intros H. contradiction H. reflexivity.
    + split; [split; [discriminate|intros [_ H]; contradiction]|].
      split; [split; discriminate|]. intros _. split; auto.
  - destruct (state g =? ST_READY); cbn [value calls fst snd];
      (split; [split; [discriminate|intros [H _]; rewrite Hc in H; discriminate]|]);
      (split; [split; discriminate|]); intros _; split; auto.
  - cbn [value calls fst snd].
    split; [split; [discriminate|intros [H _]; rewrite Hc in H; discriminate]|].
    split; [split; discriminate|]. intros _. split; auto.
  - cbn [value calls fst snd].
    split; [split; [discriminate|intros [H _]; rewrite H in Hc; discriminate]|].
    split; [split; discriminate|]. intros _. split; auto.
Qed.

Lemma bulk_write_announced_iff_frame_started_witness :
  value (usbFunctionSetup (request CMD_PROPS 0 0 25) ready) = sizeof_properties /\
  count is_frame_start (calls (usbFunctionSetup (request CMD_PROPS 0 0 25) ready)) = 0%nat.
Proof.
  destruct (bulk_write_announced_iff_frame_started ready (request CMD_PROPS 0 0 25))
    as (_ & _ & H).
  destruct H as [H1 H2]; [discriminate|].
  split; [reflexivity|exact H2].
Defined.

Lemma write_loop_value data g : write_loop data g =
  (tt, after (write_loop data g), calls (write_loop data g)).
Proof.
  unfold after, calls. destruct (write_loop data g) as [[[] g'] c]. reflexivity.
Qed.

Lemma write_loop_with_state data : forall g s,
  write_loop data (with_state s g) =
    (tt, with_state s (after (write_loop data g)), calls (write_loop data g)).
Proof.
  induction data as [|b rest IH]; intros g s; [reflexivity|].
  cbn [write_loop]. rewrite !bind_unfold.
  cbv [get value after calls fst snd with_state set_state].
  cbn [recv_cnt recv_len].
  destruct (recv_cnt g <? recv_len g); [|reflexivity].
  fold (@after unit) (@calls unit) (@value unit).
  rewrite !bind_unfold.
  cbv [call set_recv_cnt value after calls fst snd].
  fold (@after unit) (@calls unit).
  cbn [state recv_len recv_cnt usbMsgPtr app].
  match goal with |- context [write_loop rest ?g0] =>
    match g0 with
    | {| state := s |} =>
        change g0 with (with_state s
          {| state := state g; recv_len := recv_len g;
             recv_cnt := u16 (recv_cnt g + 1); usbMsgPtr := usbMsgPtr g |})
    end
  end.
  rewrite IH. reflexivity.
Qed.

(** X4: a delivery does not look at the session state: with the state set
    to any value, usbFunctionWrite returns the same value and makes the same
    display calls, and it leaves the state as it found it.  A transfer begun
    before a Bye therefore still takes its bytes. *)
Theorem delivery_ignores_session_state :
  forall (g : globals) (data : list Z) (s : Z),
    usbFunctionWrite data (with_state s g) =
      (value (usbFunctionWrite data g),
       with_state s (after (usbFunctionWrite data g)),
       calls (usbFunctionWrite data g)) /\
    state (after (usbFunctionWrite data g)) = state g.
Proof.
  intros g data s. split; [|apply usbFunctionWrite_frame].
  unfold usbFunctionWrite. rewrite !bind_unfold.
  rewrite write_loop_with_state.
  cbv [get when call ret value after calls fst snd with_state set_state].
  cbn [recv_cnt recv_len].
  match goal with |- context [if ?c then _ else _] => destruct c end;
    reflexivity.
Qed.

Lemma room_after_write data g :
  0 <= recv_cnt g -> recv_len g <= 65535 ->
  room (after (usbFunctionWrite data g)) = (room g - List.length data)%nat.
Proof.
  intros H0 H2. rewrite usbFunctionWrite_spec by assumption.
  cbv zeta. unfold room at 1. cbn [after fst snd with_recv_cnt set_recv_cnt recv_len recv_cnt].
  rewrite sizeof_accepted. unfold room, sizeof. lia.
Qed.

Lemma usbPoll_cons_calls e rest g :
  calls (usbPoll (e :: rest) g) =
  calls (handle e g) ++ calls (usbPoll rest (after (handle e g))).
Proof. rewrite usbPoll_cons. reflexivity. Qed.

Lemma usbPoll_cons_after e rest g :
  after (usbPoll (e :: rest) g) = after (usbPoll rest (after (handle e g))).
Proof. rewrite usbPoll_cons. reflexivity. Qed.

Lemma deliver_any frags : forall g,
  progress_ok g ->
  filter is_send_byte (calls (usbPoll (map Write frags) g)) =
    map CallSendByte (firstn (room g) (List.concat frags)) /\
  recv_cnt (after (usbPoll (map Write frags) g)) =
    recv_cnt g + sizeof (firstn (room g) (List.concat frags)) /\
  recv_len (after (usbPoll (map Write frags) g)) = recv_len g.
Proof.
  induction frags as [|f fs IH]; intros g Hg.
  - cbn [map List.concat usbPoll ret calls after fst snd filter].
    rewrite firstn_nil. change (sizeof []) with 0. cbn [map]. repeat split. lia.
  - cbn [map List.concat]. rewrite usbPoll_cons_calls, usbPoll_cons_after.
    cbn [handle].
    pose proof (write_progress f g Hg) as Hg1.
    destruct Hg as (H0 & H1 & H2).
    specialize (IH _ Hg1). destruct IH as (IHc & IHn & IHl).
    rewrite filter_app, IHc, IHn, IHl.
    rewrite (room_after_write f g H0 H2).
    rewrite firstn_app, map_app, sizeof_app.
    rewrite (usbFunctionWrite_spec f g H0 H2). cbv zeta.
    cbn [calls after fst snd].
    rewrite filter_app, filter_send_bytes.
    assert (Hdone : forall b : bool,
               filter is_send_byte (if b then [CallFrameDone] else []) = [])
      by (intros []; reflexivity).
    rewrite Hdone, app_nil_r.
    cbn [with_recv_cnt after set_recv_cnt fst snd recv_cnt recv_len].
    unfold accepted. repeat split. lia.
Qed.

(** X5: how a payload is cut into deliveries does not matter for what
    reaches the display: in every state reached from start-up, the send_byte
    calls made by a run of deliveries, of any sizes, are those one delivery
    of the concatenated bytes makes, and recv_cnt ends the same. *)
Theorem fragmentation_does_not_matter :
  forall (evs : list usb_event) (frags : list (list Z)),
    let g := after (main evs startup) in
    let chunked := usbPoll (map Write frags) g in
    let whole := usbFunctionWrite (List.concat frags) g in
    filter is_send_byte (calls chunked) = filter is_send_byte (calls whole) /\
    filter is_send_byte (calls chunked) =
      map CallSendByte (firstn (room g) (List.concat frags)) /\
    recv_cnt (after chunked) = recv_cnt (after whole).
Proof.
  intros evs frags g chunked whole.
  assert (Hg : progress_ok g).
  { unfold g. rewrite main_unfold. apply poll_progress, startup_progress. }
  destruct (deliver_any frags g Hg) as (Hc & Hn & _).
  destruct (deliver_any [List.concat frags] g Hg) as (Hc1 & Hn1 & _).
  cbn [map List.concat] in Hc1, Hn1. rewrite app_nil_r in Hc1, Hn1.
  rewrite usbPoll_single in Hc1, Hn1. cbn [handle calls after fst snd] in Hc1, Hn1.
  unfold chunked, whole, calls, after in *.
  rewrite Hc, Hc1, Hn, Hn1. repeat split.
Qed.

Lemma write_loop_cons b rest g :
  write_loop (b :: rest) g =
    if recv_cnt g <? recv_len g
    then (tt,
          after (write_loop rest (with_recv_cnt (u16 (recv_cnt g + 1)) g)),
          CallSendByte b
            :: calls (write_loop rest (with_recv_cnt (u16 (recv_cnt g + 1)) g)))
    else (tt, g, []).
Proof.
  cbn [write_loop].
  cbv [bind get call set_recv_cnt ret with_recv_cnt after calls fst snd].
  destruct (recv_cnt g <? recv_len g); [|reflexivity].
  destruct (write_loop rest _) as [[[] g'] c]. reflexivity.
Qed.

Lemma write_loop_calls data : forall g,
  exists k, calls (write_loop data g) = map CallSendByte (firstn k data).
Proof.
  induction data as [|b rest IH]; intros g.
  - exists 0%nat. reflexivity.
  - rewrite write_loop_cons.
    destruct (recv_cnt g <? recv_len g).
    + destruct (IH (with_recv_cnt (u16 (recv_cnt g + 1)) g)) as [k Hk].
      exists (S k). cbn [calls snd firstn map]. f_equal. exact Hk.
    + exists 0%nat. reflexivity.
Qed.

Lemma usbFunctionWrite_shape data g :
  exists k,
    usbFunctionWrite data g =
      (if recv_cnt (after (write_loop data g)) =? recv_len (after (write_loop data g))
       then 1 else 0,
       after (write_loop data g),
       map CallSendByte (firstn k data)
         ++ (if recv_cnt (after (write_loop data g)) =? recv_len (after (write_loop data g))
             then [CallFrameDone] else [])).
Proof.
  destruct (write_loop_calls data g) as [k Hk]. exists k.
  unfold usbFunctionWrite. rewrite bind_unfold, Hk.
  cbv [bind get when call ret value fst snd].
  destruct (_ =? _); rewrite ?app_nil_r; reflexivity.
Qed.

(** X6: usbFunctionWrite returns 1 or 0, and it returns 1 exactly when that
    call made the frame_done call, which is exactly when it leaves recv_cnt
    equal to recv_len; this holds for any values of the globals. *)
Theorem write_reports_complete_iff_frame_done :
  forall (g : globals) (data : list Z),
    let r := usbFunctionWrite data g in
    (value r = 1 \/ value r = 0) /\
    (value r = 1 <-> In CallFrameDone (calls r)) /\
    (value r = 1 <-> recv_cnt (after r) = recv_len (after r)) /\
    count is_frame_done (calls r) = Z.to_nat (value r).
Proof.
  intros g data r. unfold r.
  destruct (usbFunctionWrite_shape data g) as [k ->].
  cbn [value after calls fst snd].
  set (g' := after (write_loop data g)).
  assert (Hno : ~ In CallFrameDone (map CallSendByte (firstn k data))).
  { intros H. apply in_map_iff in H as (b & Hb & _). discriminate. }
  rewrite count_app.
  destruct (count_send_bytes (firstn k data)) as (_ & -> & _).
  destruct (Z.eqb_spec (recv_cnt g') (recv_len g')) as [E|E].
  - split; [left; reflexivity|]. split; [|split; [|reflexivity]].
    + split; [|reflexivity]. intros _. apply in_or_app. right. left. reflexivity.
    + split; [intros _; exact E|reflexivity].
  - split; [right; reflexivity|]. split; [|split; [|reflexivity]].
    + split; [discriminate|]. rewrite app_nil_r. intros H. contradiction.
    + split; [discriminate|]. intros H. contradiction.
Qed.

Lemma frame_open_app l1 : forall o l2,
  frame_open o (l1 ++ l2) = frame_open (frame_open o l1) l2.
Proof.
  induction l1 as [|c l1 IH]; intros o l2; [reflexivity|].
  destruct c; cbn [app frame_open]; apply IH.
Qed.

Lemma sends_inside_frames_app l1 : forall o l2,
  sends_inside_frames o (l1 ++ l2) =
  sends_inside_frames o l1 && sends_inside_frames (frame_open o l1) l2.
Proof.
  induction l1 as [|c l1 IH]; intros o l2; [reflexivity|].
  destruct c; cbn [app frame_open sends_inside_frames]; rewrite IH;
    try reflexivity.
  rewrite andb_assoc. reflexivity.
Qed.

Lemma send_bytes_in_frame bs o :
  frame_open o (map CallSendByte bs) = o /\
  (bs = [] \/ o = true -> sends_inside_frames o (map CallSendByte bs) = true).
Proof.
  induction bs as [|b bs [IH1 IH2]]; [split; reflexivity|].
  cbn [map frame_open sends_inside_frames]. split; [exact IH1|].
  intros [H|H]; [discriminate|]. rewrite (IH2 (or_intror H)), H. reflexivity.
Qed.

(** A frame is open whenever the transfer still takes bytes. *)
Lemma handle_keeps_sends_in_frames e g o :
  progress_ok g ->
  (recv_cnt g < recv_len g -> o = true) ->
  sends_inside_frames o (calls (handle e g)) = true /\
  (recv_cnt (after (handle e g)) < recv_len (after (handle e g)) ->
   frame_open o (calls (handle e g)) = true).
Proof.
  intros Hg Ho. destruct e as [rq|data]; cbn [handle].
  - destruct (setup_cases rq g)
      as [[Hc ->]|[[Hc ->]|[[Hc ->]|[[Hc ->]|[[Hc ->]|[Hc ->]]]]]].
    + destruct (magic_ok rq), (state g =? ST_IDLE); split; try reflexivity; exact Ho.
    + destruct (state g =? ST_READY); split; try reflexivity; exact Ho.
    + destruct (state g =? ST_READY); split; try reflexivity; exact Ho.
    + destruct (state g =? ST_READY); split; try reflexivity; exact Ho.
    + split; [reflexivity|exact Ho].
    + split; [reflexivity|exact Ho].
  - destruct Hg as (H0 & H1 & H2).
    rewrite (usbFunctionWrite_spec data g H0 H2). cbv zeta.
    cbn [calls after fst snd with_recv_cnt set_recv_cnt recv_cnt recv_len].
    rewrite sends_inside_frames_app, frame_open_app.
    destruct (send_bytes_in_frame (accepted data g) o) as [Hopen Hin].
    rewrite Hopen.
    assert (Hacc : accepted data g = [] \/ o = true).
    { destruct (Z.ltb_spec (recv_cnt g) (recv_len g)) as [Hlt|Hge]; [right; auto|].
      left. unfold accepted, room. replace (Z.to_nat _) with 0%nat by lia.
      reflexivity. }
    rewrite (Hin Hacc). cbn [andb].
    destruct (Z.eqb_spec (recv_cnt g + sizeof (accepted data g)) (recv_len g)) as [E|E].
    + split; [reflexivity|]. lia.
    + split; [reflexivity|]. intros Hlt. cbn [frame_open]. apply Ho.
      pose proof (sizeof_nonneg (accepted data g)). lia.
Qed.

Lemma poll_keeps_sends_in_frames evs : forall g o,
  progress_ok g ->
  (recv_cnt g < recv_len g -> o = true) ->
  sends_inside_frames o (calls (usbPoll evs g)) = true.
Proof.
  induction evs as [|e evs IH]; intros g o Hg Ho; [reflexivity|].
  rewrite usbPoll_cons_calls, sends_inside_frames_app.
  destruct (handle_keeps_sends_in_frames e g o Hg Ho) as [-> Hnext].
  cbn [andb]. apply IH; [apply handle_progress, Hg | exact Hnext].
Qed.

(** X7: in everything the firmware does from start-up on, each send_byte
    call on the display comes after a frame_start with no frame_done in
    between: no byte is passed on before the first frame or after a frame
    has been ended. *)
Theorem send_byte_only_inside_a_frame :
  forall evs : list usb_event,
    sends_inside_frames false (calls (main evs startup)) = true.
Proof.
  intros evs. rewrite main_unfold. cbn [calls snd sends_inside_frames].
  apply poll_keeps_sends_in_frames; [apply startup_progress|].
  cbn. lia.
Qed.

(** X8: the session state takes two values only: after any events it is
    ST_IDLE or ST_READY, and it is ST_IDLE whenever the last request was a
    Bye. *)
Theorem session_state_is_idle_or_ready :
  forall evs : list usb_event,
    (state (after (main evs startup)) = ST_IDLE \/
     state (after (main evs startup)) = ST_READY) /\
    (forall bye, is_bye bye = true ->
       state (after (main (evs ++ [bye]) startup)) = ST_IDLE).
Proof.
  intros evs. split.
  - rewrite main_unfold. cbn [after fst snd].
    induction evs as [|e evs IH] using rev_ind; [left; reflexivity|].
    rewrite usbPoll_app. cbn [after fst snd]. rewrite usbPoll_single.
    cbn [after fst snd]. rewrite handle_state.
    destruct (is_valid_hello e); [right; reflexivity|].
    destruct (is_bye e); [left; reflexivity|exact IH].
  - intros bye Hbye. rewrite main_unfold. cbn [after fst snd].
    rewrite usbPoll_app. cbn [after fst snd]. rewrite usbPoll_single.
    cbn [after fst snd]. rewrite handle_state, Hbye.
    destruct (is_valid_hello bye) eqn:Hh; [|reflexivity].
    apply hello_is_not_bye in Hh. congruence.
Qed.

Lemma session_state_is_idle_or_ready_witness :
  state (after (main ([Hello HELLO_VALUE HELLO_INDEX; Data 8] ++ [Bye]) startup))
    = ST_IDLE.
Proof.
  apply (session_state_is_idle_or_ready [Hello HELLO_VALUE HELLO_INDEX; Data 8]).
  reflexivity.
Defined.

(** X9: a session closed with a Bye and opened again with a valid Hello
    does not touch the display and keeps the transfer counters, whatever the
    state was before: the Bye returns 0, the Hello the size of the banner,
    and the device is in ST_READY. *)
Theorem bye_then_hello_reopens_quietly :
  forall (g : globals) (bye hello : usbRequest_t),
    bRequest bye = CMD_BYE ->
    is_valid_hello (Setup hello) = true ->
    usbPoll [Setup bye; Setup hello] g =
      ([0; sizeof banner],
       {| state := ST_READY; recv_len := recv_len g; recv_cnt := recv_cnt g;
          usbMsgPtr := MsgBanner |},
       []).
Proof.
  intros g bye hello Hbye Hhello. cbn [is_valid_hello] in Hhello.
  apply andb_true_iff in Hhello as [Hh Hm]. apply Z.eqb_eq in Hh.
  rewrite usbPoll_cons, usbPoll_single. cbn [handle].
  rewrite setup_bye by assumption. cbn [value after calls fst snd].
  rewrite setup_hello by assumption. rewrite Hm. reflexivity.
Qed.

Lemma bye_then_hello_reopens_quietly_witness :
  calls (usbPoll [Bye; Hello HELLO_VALUE HELLO_INDEX]
           (after (usbPoll [Data 4; Write [1]] ready))) = [].
Proof.
  unfold Bye, Hello.
  rewrite (bye_then_hello_reopens_quietly
             (after (usbPoll [Data 4; Write [1]] ready))
             (request CMD_BYE 0 0 0)
             (request CMD_HELLO HELLO_VALUE HELLO_INDEX (sizeof banner))
             eq_refl eq_refl).
  reflexivity.
Defined.

(** * Further properties of nokia5110.c *)

Lemma testbit_u8_clear r pin n :
  0 <= n -> 0 <= pin ->
  Z.testbit (u8 (bit_clear r pin)) n =
    (n <? 8) && (Z.testbit r n && negb (n =? pin)).
Proof.
  intros Hn Hp. unfold u8, bit_clear. change 256 with (2 ^ 8).
  rewrite Z.testbit_mod_pow2, Z.land_spec, Z.lnot_spec, Z.shiftl_spec by lia.
  do 3 f_equal.
  destruct (Z.eqb_spec n pin) as [->|Hne].
  - rewrite Z.sub_diag. reflexivity.
  - destruct (Z.ltb_spec n pin).
    + apply Z.testbit_neg_r. lia.
    + apply Z.bits_above_log2; cbn; lia.
Qed.

Lemma testbit_u8_set r pin n :
  0 <= n -> 0 <= pin ->
  Z.testbit (u8 (bit_set r pin)) n =
    (n <? 8) && (Z.testbit r n || (n =? pin)).
Proof.
  intros Hn Hp. unfold u8, bit_set. change 256 with (2 ^ 8).
  rewrite Z.testbit_mod_pow2, Z.lor_spec, Z.shiftl_spec by lia.
  do 2 f_equal.
  destruct (Z.eqb_spec n pin) as [->|Hne].
  - rewrite Z.sub_diag. reflexivity.
  - destruct (Z.ltb_spec n pin).
    + apply Z.testbit_neg_r. lia.
    + apply Z.bits_above_log2; cbn; lia.
Qed.

Lemma send_bytes_wire splash bs : forall hw,
  let hw' := exec_calls (display splash) (map CallSendByte bs) hw in
  wire hw' = wire hw ++ map (fun b => (PORTB hw, u8 b)) bs /\
  PORTB hw' = PORTB hw /\ DDRB hw' = DDRB hw /\ SPCR hw' = SPCR hw.
Proof.
  induction bs as [|b bs IH]; intros hw.
  - cbn. rewrite app_nil_r. auto.
  - cbn [map]. unfold exec_calls in *. cbn [fold_left exec_call display send_byte].
    destruct (IH (spi_send_byte b hw)) as (Hw & Hp & Hd & Hs).
    cbv zeta. rewrite Hw, Hp, Hd, Hs. cbn [spi_send_byte wire PORTB DDRB SPCR].
    rewrite <- app_assoc. auto.
Qed.

Lemma exec_calls_app {HW} (d : display_t HW) l1 l2 hw :
  exec_calls d (l1 ++ l2) hw = exec_calls d l2 (exec_calls d l1 hw).
Proof. unfold exec_calls. apply fold_left_app. Qed.

(** One frame written through the three frame operations of the driver. *)
Lemma frame_on_the_wire splash hw bs :
  let hw' := exec_calls (display splash)
               ([CallFrameStart] ++ map CallSendByte bs ++ [CallFrameDone]) hw in
  exists cmds dat,
    wire hw' = wire hw ++ cmds ++ dat /\
    bytes_of cmds = [0x80; 0x40] /\
    forallb sent_as_command cmds = true /\
    bytes_of dat = map u8 bs /\
    forallb sent_as_data dat = true /\
    Z.testbit (PORTB hw') SPI_CS_PIN = true /\
    DDRB hw' = DDRB hw /\ SPCR hw' = SPCR hw /\
    PORTB hw' =
      u8 (bit_set (u8 (bit_set (u8 (bit_clear (u8 (bit_clear (PORTB hw)
        SPI_CS_PIN)) SPI_DC_PIN)) SPI_DC_PIN)) SPI_CS_PIN).
Proof.
  cbv zeta. rewrite !exec_calls_app.
  change (exec_calls (display splash) [CallFrameStart] hw)
    with (nokia5110_frame_start hw).
  set (h1 := nokia5110_frame_start hw).
  destruct (send_bytes_wire splash bs h1) as (Hw & Hp & Hd & Hs).
  set (h2 := exec_calls (display splash) (map CallSendByte bs) h1) in *.
  change (exec_calls (display splash) [CallFrameDone] h2)
    with (nokia5110_frame_done h2).
  set (pc := u8 (bit_clear (u8 (bit_clear (PORTB hw) SPI_CS_PIN)) SPI_DC_PIN)).
  assert (H1w : wire h1 = wire hw ++ [(pc, 0x80); (pc, 0x40)])
    by (cbn; rewrite <- app_assoc; reflexivity).
  assert (H1p : PORTB h1 = u8 (bit_set pc SPI_DC_PIN)) by reflexivity.
  assert (Hpc_cs : Z.testbit pc SPI_CS_PIN = false).
  { unfold pc. rewrite !testbit_u8_clear by (cbv; discriminate).
    cbn [Z.ltb Z.compare SPI_CS_PIN SPI_DC_PIN PB1 PB2 Z.eqb Pos.eqb Pos.compare
         Pos.compare_cont negb andb]. rewrite andb_false_r. reflexivity. }
  assert (Hpc_dc : Z.testbit pc SPI_DC_PIN = false).
  { unfold pc. rewrite !testbit_u8_clear by (cbv; discriminate).
    rewrite Z.eqb_refl. cbn [negb]. rewrite andb_false_r. reflexivity. }
  assert (Hpd_cs : Z.testbit (PORTB h1) SPI_CS_PIN = false).
  { rewrite H1p, testbit_u8_set by (cbv; discriminate). rewrite Hpc_cs. reflexivity. }
  assert (Hpd_dc : Z.testbit (PORTB h1) SPI_DC_PIN = true).
  { rewrite H1p, testbit_u8_set by (cbv; discriminate).
    rewrite Z.eqb_refl, orb_true_r. reflexivity. }
  exists [(pc, 0x80); (pc, 0x40)], (map (fun b => (PORTB h1, u8 b)) bs).
  cbv zeta in Hw. unfold nokia5110_frame_done, steps. cbn [fold_left].
  unfold lcd_spi_disable, spi_cs_high, set_PORTB. cbn [wire PORTB DDRB SPCR].
  rewrite Hw, Hp, Hd, Hs, H1w. repeat split.
  - rewrite <- app_assoc. reflexivity.
  - cbn [forallb]. unfold sent_as_command. cbn [fst].
    rewrite Hpc_cs, Hpc_dc. reflexivity.
  - unfold bytes_of. rewrite map_map. reflexivity.
  - rewrite forallb_forall. intros e He. apply in_map_iff in He as (b & <- & _).
    unfold sent_as_data. cbn [fst]. rewrite Hpd_cs, Hpd_dc. reflexivity.
  - rewrite testbit_u8_set by (cbv; discriminate).
    rewrite Z.eqb_refl, orb_true_r. reflexivity.
Qed.

Lemma u8_small b : 0 <= b < 256 -> u8 b = b.
Proof. intros H. apply Z.mod_small. exact H. Qed.

Lemma map_u8_bytes bs : Forall (fun b => 0 <= b < 256) bs -> map u8 bs = bs.
Proof.
  induction 1 as [|b bs Hb _ IH]; [reflexivity|].
  cbn [map]. rewrite IH, u8_small by assumption. reflexivity.
Qed.

(** X10: on the Nokia 5110, frame_start, one send_byte for each byte of a
    frame and frame_done put on the SPI wire, after what was there, the two
    address commands 0x80 and 0x40 with chip select low and the data/command
    line low, then the frame's bytes unchanged and in order with chip select
    low and the data/command line high; chip select is high at the end and
    the port directions and the SPI control register are not touched. *)
Theorem nokia5110_frame_reaches_panel :
  forall (splash : nat -> Z) (hw : avr) (bs : list Z),
    Forall (fun b => 0 <= b < 256) bs ->
    let hw' := exec_calls (display splash)
                 ([CallFrameStart] ++ map CallSendByte bs ++ [CallFrameDone]) hw in
    exists cmds dat,
      wire hw' = wire hw ++ cmds ++ dat /\
      bytes_of cmds = [0x80; 0x40] /\
      forallb sent_as_command cmds = true /\
      bytes_of dat = bs /\
      forallb sent_as_data dat = true /\
      Z.testbit (PORTB hw') SPI_CS_PIN = true /\
      DDRB hw' = DDRB hw /\ SPCR hw' = SPCR hw.
Proof.
  intros splash hw bs Hbs hw'.
  destruct (frame_on_the_wire splash hw bs)
    as (cmds & dat & Hw & Hc & Hcc & Hd & Hdd & Hcs & Hddr & Hspcr & _).
  exists cmds, dat. rewrite (map_u8_bytes bs Hbs) in Hd. repeat split; assumption.
Qed.

Lemma nokia5110_frame_reaches_panel_witness :
  bytes_of (wire (exec_calls (display (fun _ => 0))
     ([CallFrameStart] ++ map CallSendByte [1; 2; 255] ++ [CallFrameDone])
     {| DDRB := 0; PORTB := 0; SPCR := 0; SPSR := 0; SPDR := 0; wire := [] |}))
  = [0x80; 0x40; 1; 2; 255].
Proof.
  destruct (nokia5110_frame_reaches_panel (fun _ => 0)
              {| DDRB := 0; PORTB := 0; SPCR := 0; SPSR := 0; SPDR := 0; wire := [] |}
              [1; 2; 255])
    as (cmds & dat & Hw & Hc & _ & Hd & _).
  - repeat constructor; cbn; lia.
  - rewrite Hw. unfold bytes_of in *. cbn [wire app]. rewrite map_app, Hc, Hd.
    reflexivity.
Defined.

Lemma configure_wire hw :
  let c := nokia5110_configure hw in
  exists cmds,
    wire c = wire hw ++ cmds /\
    bytes_of cmds = [0x21; 0xc8; 0x06; 0x12; 0x20; 0x08; 0x0c] /\
    forallb sent_as_command cmds = true /\
    SPCR c = 0x50 /\
    Forall (fun pin => Z.testbit (DDRB c) pin = true) [PB0; PB1; PB2; DDB3; DDB5] /\
    Z.testbit (PORTB c) LCD_RESET_PIN = true.
Proof.
  cbv zeta.
  set (p := u8 (bit_clear (u8 (bit_clear (u8 (bit_set (u8 (bit_clear (PORTB hw)
              LCD_RESET_PIN)) LCD_RESET_PIN)) SPI_CS_PIN)) SPI_DC_PIN)).
  assert (Hp : PORTB (nokia5110_configure hw) = p) by reflexivity.
  assert (Hcs : Z.testbit p SPI_CS_PIN = false).
  { unfold p. rewrite !testbit_u8_clear by (cbv; discriminate).
    cbn [SPI_CS_PIN SPI_DC_PIN PB1 PB2 Z.eqb Pos.eqb negb andb].
    rewrite !andb_false_r. reflexivity. }
  assert (Hdc : Z.testbit p SPI_DC_PIN = false).
  { unfold p. rewrite !testbit_u8_clear by (cbv; discriminate).
    rewrite Z.eqb_refl. cbn [negb]. rewrite !andb_false_r. reflexivity. }
  exists (map (fun b => (p, b)) [0x21; 0xc8; 0x06; 0x12; 0x20; 0x08; 0x0c]).
  split; [|split; [|split; [|split; [|split]]]].
  - cbn. rewrite <- !app_assoc. reflexivity.
  - reflexivity.
  - cbn [map forallb]. unfold sent_as_command. cbn [fst]. rewrite Hcs, Hdc. reflexivity.
  - reflexivity.
  - assert (Hd : DDRB (nokia5110_configure hw) =
                 u8 (Z.lor (u8 (bit_set (u8 (bit_set (u8 (bit_set (DDRB hw)
                   LCD_RESET_PIN)) SPI_CS_PIN)) SPI_DC_PIN))
                   (Z.lor (Z.shiftl 1 DDB3) (Z.shiftl 1 DDB5)))) by reflexivity.
    rewrite Hd. unfold u8 at 1. change 256 with (2 ^ 8).
    repeat constructor;
      rewrite Z.testbit_mod_pow2, Z.lor_spec, !testbit_u8_set by (cbv; discriminate);
      cbn [LCD_RESET_PIN SPI_CS_PIN SPI_DC_PIN PB0 PB1 PB2 DDB3 DDB5 Z.eqb Pos.eqb
           Z.ltb Z.compare Pos.compare Pos.compare_cont orb andb Z.shiftl
           Pos.iter Z.lor Pos.lor Z.testbit Pos.testbit Pos.pred_N];
      rewrite ?orb_true_r; reflexivity.
  - rewrite Hp. unfold p.
    rewrite !testbit_u8_clear, testbit_u8_set by (cbv; discriminate).
    cbn [LCD_RESET_PIN SPI_CS_PIN SPI_DC_PIN PB0 PB1 PB2 Z.eqb Pos.eqb
         Z.ltb Z.compare negb andb]. rewrite orb_true_r. reflexivity.
Qed.

(** X11: from any register contents, nokia5110_init leaves the SPI enabled
    as controller in mode 0 (SPCR = 0x50), the five pins it drives set as
    outputs, the display out of reset and chip select high; on the wire it
    has put the seven configuration commands and the two address commands,
    all in command mode, and then the X_RES * Y_RES / 8 splash bytes in data
    mode. *)
Theorem nokia5110_init_result :
  forall (splash : nat -> Z) (hw : avr),
    let hw' := nokia5110_init splash hw in
    exists cmds dat,
      wire hw' = wire hw ++ cmds ++ dat /\
      bytes_of cmds = [0x21; 0xc8; 0x06; 0x12; 0x20; 0x08; 0x0c; 0x80; 0x40] /\
      forallb sent_as_command cmds = true /\
      bytes_of dat = map u8 (splash_frame splash) /\
      Z.of_nat (List.length dat) = X_RES * Y_RES / 8 /\
      forallb sent_as_data dat = true /\
      SPCR hw' = 0x50 /\
      Forall (fun pin => Z.testbit (DDRB hw') pin = true) [PB0; PB1; PB2; DDB3; DDB5] /\
      Z.testbit (PORTB hw') LCD_RESET_PIN = true /\
      Z.testbit (PORTB hw') SPI_CS_PIN = true.
Proof.
  intros splash hw hw'. unfold hw'. rewrite nokia5110_init_sends_frame.
  destruct (configure_wire hw) as (c1 & Hw1 & Hb1 & Hc1 & Hspcr & Hddr & Hrst).
  destruct (frame_on_the_wire splash (nokia5110_configure hw) (splash_frame splash))
    as (c2 & dat & Hw2 & Hb2 & Hc2 & Hbd & Hcd & Hcs & Hddr2 & Hspcr2 & Hport).
  cbv zeta in *.
  exists (c1 ++ c2), dat.
  rewrite Hw2, Hw1, Hddr2, Hspcr2.
  split; [rewrite <- !app_assoc; reflexivity|].
  split; [unfold bytes_of in *; rewrite map_app, Hb1, Hb2; reflexivity|].
  split; [rewrite forallb_app, Hc1, Hc2; reflexivity|].
  split; [exact Hbd|].
  split.
  { unfold bytes_of in Hbd.
    rewrite <- (length_map snd dat), Hbd, length_map.
    apply splash_frame_size. }
  split; [exact Hcd|]. split; [exact Hspcr|]. split; [exact Hddr|].
  split; [|exact Hcs].
  rewrite Hport, !testbit_u8_set, !testbit_u8_clear by (cbv; discriminate).
  rewrite Hrst. reflexivity.
Qed.

(** X12: a complete frame transfer as the firmware handles it, played on the
    Nokia 5110: for a Data request taken in ST_READY and chunks of at least
    one byte that add up to the declared length, the display calls the
    firmware makes put the two address commands and then exactly the
    payload bytes, unchanged and in order, on the SPI wire in data mode, and
    leave chip select high. *)
Theorem frame_transfer_reaches_nokia5110 :
  forall (g : globals) (rq : usbRequest_t) (frags : list (list Z))
         (splash : nat -> Z) (hw : avr),
    bRequest rq = CMD_DATA ->
    state g = ST_READY ->
    1 <= wLength rq < 65536 ->
    nonempty_chunks frags ->
    sizeof (List.concat frags) = wLength rq ->
    Forall (fun b => 0 <= b < 256) (List.concat frags) ->
    let hw' := exec_calls (display splash)
                 (calls (usbPoll (Setup rq :: map Write frags) g)) hw in
    exists cmds dat,
      wire hw' = wire hw ++ cmds ++ dat /\
      bytes_of cmds = [0x80; 0x40] /\
      forallb sent_as_command cmds = true /\
      bytes_of dat = List.concat frags /\
      forallb sent_as_data dat = true /\
      Z.testbit (PORTB hw') SPI_CS_PIN = true.
Proof.
  intros g rq frags splash hw Hrq Hst Hlen Hne Htot Hbytes hw'. unfold hw'.
  rewrite data_then_chunks by (assumption || lia).
  replace (match frags with [] => false | _ => _ end) with true.
  2:{ destruct frags; [cbn in Htot; change (sizeof []) with 0 in Htot; lia|].
      symmetry. apply Z.eqb_eq. exact Htot. }
  change (CallFrameStart :: ?l) with ([CallFrameStart] ++ l).
  destruct (frame_on_the_wire splash hw (List.concat frags))
    as (cmds & dat & Hw & Hc & Hcc & Hd & Hdd & Hcs & _).
  exists cmds, dat. rewrite (map_u8_bytes _ Hbytes) in Hd.
  repeat split; assumption.
Qed.

Lemma frame_transfer_reaches_nokia5110_witness :
  bytes_of (wire (exec_calls (display (fun _ => 0))
     (calls (usbPoll (Data 3 :: map Write [[7; 8]; [9]]) ready))
     {| DDRB := 0; PORTB := 0; SPCR := 0; SPSR := 0; SPDR := 0; wire := [] |}))
  = [0x80; 0x40; 7; 8; 9].
Proof.
  destruct (frame_transfer_reaches_nokia5110 ready (request CMD_DATA 0 0 3)
              [[7; 8]; [9]] (fun _ => 0)
              {| DDRB := 0; PORTB := 0; SPCR := 0; SPSR := 0; SPDR := 0; wire := [] |})
    as (cmds & dat & Hw & Hc & _ & Hd & _).
  - reflexivity.
  - reflexivity.
  - cbn; lia.
  - repeat constructor; discriminate.
  - reflexivity.
  - repeat constructor; cbn; lia.
  - unfold Data. rewrite Hw. unfold bytes_of in *. cbn [wire app].
    rewrite map_app, Hc, Hd. reflexivity.
Defined.

(** * Properties of st7789.c *)

Lemma st_bit_clear p pin n :
  0 <= n < 8 -> 0 <= pin ->
  Z.testbit (u8 (bit_clear p pin)) n = Z.testbit p n && negb (n =? pin).
Proof.
  intros Hn Hp. rewrite testbit_u8_clear by lia.
  destruct (Z.ltb_spec n 8); [reflexivity|lia].
Qed.

Lemma st_bit_set p pin n :
  0 <= n < 8 -> 0 <= pin ->
  Z.testbit (u8 (bit_set p pin)) n = Z.testbit p n || (n =? pin).
Proof.
  intros Hn Hp. rewrite testbit_u8_set by lia.
  destruct (Z.ltb_spec n 8); [reflexivity|lia].
Qed.

Ltac st_pin :=
  unfold st_cs, st_dc, St7789.lcd_spi_enable, St7789.lcd_spi_disable,
    St7789.lcd_command_mode, St7789.lcd_data_mode, St7789.spi_cs_low,
    St7789.spi_cs_high, St7789.spi_dc_low, St7789.spi_dc_high, set_PORTB;
  cbn [PORTB];
  rewrite ?st_bit_clear, ?st_bit_set by (cbv; intuition discriminate);
  cbn [St7789.SPI_CS_PIN St7789.SPI_DC_PIN PB0 PB2 Z.eqb Pos.eqb negb];
  rewrite ?andb_true_r, ?andb_false_r, ?orb_true_r, ?orb_false_r; reflexivity.

Lemma st_cs_enable hw : st_cs (St7789.lcd_spi_enable hw) = false.
Proof. st_pin. Qed.
Lemma st_dc_enable hw : st_dc (St7789.lcd_spi_enable hw) = st_dc hw.
Proof. st_pin. Qed.
Lemma st_cs_disable hw : st_cs (St7789.lcd_spi_disable hw) = true.
Proof. st_pin. Qed.
Lemma st_dc_disable hw : st_dc (St7789.lcd_spi_disable hw) = st_dc hw.
Proof. st_pin. Qed.
Lemma st_cs_command hw : st_cs (St7789.lcd_command_mode hw) = st_cs hw.
Proof. st_pin. Qed.
Lemma st_dc_command hw : st_dc (St7789.lcd_command_mode hw) = false.
Proof. st_pin. Qed.
Lemma st_cs_data hw : st_cs (St7789.lcd_data_mode hw) = st_cs hw.
Proof. st_pin. Qed.
Lemma st_dc_data hw : st_dc (St7789.lcd_data_mode hw) = true.
Proof. st_pin. Qed.
Lemma st_cs_send b hw : st_cs (St7789.spi_send_byte b hw) = st_cs hw.
Proof. reflexivity. Qed.
Lemma st_dc_send b hw : st_dc (St7789.spi_send_byte b hw) = st_dc hw.
Proof. reflexivity. Qed.
Lemma st_cs_delay ms hw : st_cs (_delay_ms ms hw) = st_cs hw.
Proof. reflexivity. Qed.
Lemma st_dc_delay ms hw : st_dc (_delay_ms ms hw) = st_dc hw.
Proof. reflexivity. Qed.

Lemma st_seen_enable hw : st_seen (St7789.lcd_spi_enable hw) = st_seen hw.
Proof. reflexivity. Qed.
Lemma st_seen_disable hw : st_seen (St7789.lcd_spi_disable hw) = st_seen hw.
Proof. reflexivity. Qed.
Lemma st_seen_command hw : st_seen (St7789.lcd_command_mode hw) = st_seen hw.
Proof. reflexivity. Qed.
Lemma st_seen_data hw : st_seen (St7789.lcd_data_mode hw) = st_seen hw.
Proof. reflexivity. Qed.
Lemma st_seen_delay ms hw : st_seen (_delay_ms ms hw) = st_seen hw.
Proof. reflexivity. Qed.
Lemma st_seen_send b hw :
  st_seen (St7789.spi_send_byte b hw) = st_seen hw ++ [(st_cs hw, st_dc hw, u8 b)].
Proof.
  unfold st_seen, St7789.spi_send_byte, spi_send_byte. cbn [wire].
  rewrite map_app. reflexivity.
Qed.

Create Rewrite HintDb st7789.
#[local] Hint Rewrite
  st_cs_enable st_dc_enable st_cs_disable st_dc_disable
  st_cs_command st_dc_command st_cs_data st_dc_data
  st_cs_send st_dc_send st_cs_delay st_dc_delay
  st_seen_enable st_seen_disable st_seen_command st_seen_data st_seen_delay
  st_seen_send : st7789.

(** A run of plain SPI bytes. *)
Lemma st_send_run bs : forall hw,
  let hw' := steps (map St7789.spi_send_byte bs) hw in
  st_seen hw' = st_seen hw ++ map (fun b => (st_cs hw, st_dc hw, u8 b)) bs /\
  st_cs hw' = st_cs hw /\ st_dc hw' = st_dc hw.
Proof.
  induction bs as [|b bs IH]; intros hw.
  - cbn. rewrite app_nil_r. auto.
  - cbn [map]. unfold steps in *. cbn [fold_left].
    destruct (IH (St7789.spi_send_byte b hw)) as (Hs & Hc & Hd).
    cbv zeta. rewrite Hs, Hc, Hd. autorewrite with st7789.
    rewrite <- app_assoc. auto.
Qed.

Lemma st7789_frame_start_seen hw :
  let hw' := St7789.st7789_frame_start hw in
  st_seen hw' =
    st_seen hw ++
    [st_cmd 0x2A; st_dat 0; st_dat 0; st_dat 0; st_dat 239;
     st_cmd 0x2B; st_dat 0; st_dat 80; st_dat 1; st_dat 63;
     st_cmd 0x2C] /\
  st_cs hw' = false /\ st_dc hw' = true.
Proof.
  cbv zeta. unfold St7789.st7789_frame_start, steps. cbn [fold_left].
  autorewrite with st7789. repeat split.
  rewrite <- !app_assoc. reflexivity.
Qed.

Lemma lowest_bit_test d i :
  0 <= i -> negb (Z.land (Z.shiftr d i) 1 =? 0) = Z.testbit d i.
Proof.
  intros Hi. rewrite <- (Z.add_0_l i) at 2. rewrite <- Z.shiftr_spec by lia.
  change 1 with (Z.ones 1). rewrite Z.land_ones by lia. change (2 ^ 1) with 2.
  rewrite Z.bit0_eqb.
  pose proof (Z.mod_pos_bound (Z.shiftr d i) 2 eq_refl).
  destruct (Z.eqb_spec (Z.shiftr d i mod 2) 0), (Z.eqb_spec (Z.shiftr d i mod 2) 1);
    cbn [negb]; try reflexivity; lia.
Qed.

Lemma send_pixel_steps d i :
  0 <= i ->
  St7789.send_pixel d i =
  map St7789.spi_send_byte (if Z.testbit d i then [0xff; 0xff] else [0; 0]).
Proof.
  intros Hi. unfold St7789.send_pixel. cbv zeta. rewrite lowest_bit_test by exact Hi.
  destruct (Z.testbit d i); reflexivity.
Qed.

Lemma st7789_send_byte_steps data :
  St7789.st7789_send_byte data =
  steps (map St7789.spi_send_byte (pixel_bytes (u8 data))).
Proof.
  unfold St7789.st7789_send_byte, pixel_bytes.
  change (St7789.upto 8) with [0; 1; 2; 3; 4; 5; 6; 7].
  cbn [flat_map]. rewrite !send_pixel_steps by lia.
  rewrite !map_app. reflexivity.
Qed.

Lemma pixel_bytes_range d : Forall (fun b => 0 <= b < 256) (pixel_bytes d).
Proof.
  unfold pixel_bytes. change (St7789.upto 8) with [0; 1; 2; 3; 4; 5; 6; 7].
  cbn [flat_map].
  repeat match goal with |- context [Z.testbit d ?i] => destruct (Z.testbit d i) end;
    repeat constructor; lia.
Qed.

Lemma st7789_send_byte_seen data hw :
  let hw' := St7789.st7789_send_byte data hw in
  st_seen hw' =
    st_seen hw ++ map (fun b => (st_cs hw, st_dc hw, b)) (pixel_bytes (u8 data)) /\
  st_cs hw' = st_cs hw /\ st_dc hw' = st_dc hw.
Proof.
  cbv zeta. rewrite st7789_send_byte_steps.
  destruct (st_send_run (pixel_bytes (u8 data)) hw) as (Hs & Hc & Hd).
  cbv zeta in Hs, Hc, Hd. rewrite Hs, Hc, Hd. repeat split.
  f_equal. rewrite <- (map_u8_bytes _ (pixel_bytes_range (u8 data))) at 2.
  rewrite map_map. reflexivity.
Qed.

Lemma st7789_send_bytes_seen bs : forall hw,
  st_cs hw = false -> st_dc hw = true ->
  let hw' := exec_calls St7789.display (map CallSendByte bs) hw in
  st_seen hw' =
    st_seen hw ++ map st_dat (flat_map (fun b => pixel_bytes (u8 b)) bs) /\
  st_cs hw' = false /\ st_dc hw' = true.
Proof.
  induction bs as [|b bs IH]; intros hw Hc Hd.
  - cbn. rewrite app_nil_r. auto.
  - cbn [map flat_map]. unfold exec_calls in *.
    cbn [fold_left exec_call St7789.display send_byte].
    destruct (st7789_send_byte_seen b hw) as (Hs1 & Hc1 & Hd1). cbv zeta in *.
    rewrite Hc in Hc1, Hs1. rewrite Hd in Hd1, Hs1.
    destruct (IH _ Hc1 Hd1) as (Hs & Hc2 & Hd2).
    rewrite Hs, Hs1, map_app, <- app_assoc. auto.
Qed.

Lemma pixel_bytes_length d : List.length (pixel_bytes d) = 16%nat.
Proof.
  unfold pixel_bytes. change (St7789.upto 8) with [0; 1; 2; 3; 4; 5; 6; 7].
  cbn [flat_map].
  repeat match goal with |- context [Z.testbit d ?i] => destruct (Z.testbit d i) end;
    reflexivity.
Qed.

Lemma pixels_to_byte_bits d :
  pixels_to_byte (pixel_bytes d) = d mod 2 ^ 8.
Proof.
  apply Z.bits_inj'. intros n Hn. rewrite Z.testbit_mod_pow2 by lia.
  unfold pixel_bytes. change (St7789.upto 8) with [0; 1; 2; 3; 4; 5; 6; 7].
  cbn [flat_map].
  assert (Hcase : n = 0 \/ n = 1 \/ n = 2 \/ n = 3 \/ n = 4 \/ n = 5 \/ n = 6
                  \/ n = 7 \/ 8 <= n) by lia.
  destruct (Z.testbit d 0) eqn:E0, (Z.testbit d 1) eqn:E1, (Z.testbit d 2) eqn:E2,
    (Z.testbit d 3) eqn:E3, (Z.testbit d 4) eqn:E4, (Z.testbit d 5) eqn:E5,
    (Z.testbit d 6) eqn:E6, (Z.testbit d 7) eqn:E7;
    cbn [app pixels_to_byte Z.eqb Z.add Z.mul Pos.add Pos.mul Pos.succ];
    (destruct Hcase as [->|[->|[->|[->|[->|[->|[->|[->|Hbig]]]]]]]];
     [rewrite ?E0, ?E1, ?E2, ?E3, ?E4, ?E5, ?E6, ?E7; reflexivity ..|]);
    (destruct (Z.ltb_spec n 8); [lia|]);
    cbn [andb]; apply Z.bits_above_log2; cbn; lia.
Qed.

(** X13: st7789_send_byte turns a frame byte into sixteen SPI bytes, two
    per pixel from bit 0 up, 0xff 0xff for a set bit and 0x00 0x00 for a
    clear one, sent under the line levels it finds and leaving them as they
    are; the frame byte can be read back from the sixteen bytes. *)
Theorem st7789_send_byte_expands_pixels :
  forall (data : Z) (hw : avr),
    0 <= data < 256 ->
    let hw' := St7789.st7789_send_byte data hw in
    st_seen hw' =
      st_seen hw ++ map (fun b => (st_cs hw, st_dc hw, b)) (pixel_bytes data) /\
    List.length (pixel_bytes data) = 16%nat /\
    pixels_to_byte (pixel_bytes data) = data /\
    st_cs hw' = st_cs hw /\ st_dc hw' = st_dc hw.
Proof.
  intros data hw Hdata hw'.
  destruct (st7789_send_byte_seen data hw) as (Hs & Hc & Hd). cbv zeta in *.
  rewrite (u8_small data Hdata) in Hs.
  split; [exact Hs|]. split; [apply pixel_bytes_length|].
  split; [|split; assumption].
  rewrite pixels_to_byte_bits. apply Z.mod_small. exact Hdata.
Qed.

Lemma st7789_send_byte_expands_pixels_witness :
  pixel_bytes 0x05 =
    [255; 255; 0; 0; 255; 255; 0; 0; 0; 0; 0; 0; 0; 0; 0; 0] /\
  pixels_to_byte (pixel_bytes 0x05) = 0x05.
Proof.
  split; [reflexivity|].
  apply (st7789_send_byte_expands_pixels 0x05
           {| DDRB := 0; PORTB := 0; SPCR := 0; SPSR := 0; SPDR := 0; wire := [] |}).
  lia.
Defined.

Lemma flat_map_length_const {A B} (f : A -> list B) (n : nat) (l : list A) :
  (forall a, List.length (f a) = n) ->
  List.length (flat_map f l) = (n * List.length l)%nat.
Proof.
  intros Hf. induction l as [|a l IH]; cbn [flat_map List.length]; [lia|].
  rewrite length_app, Hf, IH. lia.
Qed.

Lemma flat_map_ext_in {A B} (f g : A -> list B) (l : list A) :
  Forall (fun a => f a = g a) l -> flat_map f l = flat_map g l.
Proof.
  induction 1 as [|a l Ha _ IH]; [reflexivity|].
  cbn [flat_map]. rewrite Ha, IH. reflexivity.
Qed.

(** X14: on the ST7789, frame_start, one send_byte per frame byte and
    frame_done put on the wire the column window 0..239 after CASET, the row
    window 80..319 after RASET and the RAMWR command, each command with the
    data/command line low and each parameter with it high, then the pixel
    bytes of the frame bytes in order as data, all with chip select low;
    chip select is high at the end.  A frame of X_RES * Y_RES / 8 bytes gives
    two bytes for every pixel of the window. *)
Theorem st7789_frame_reaches_panel :
  forall (hw : avr) (bs : list Z),
    Forall (fun b => 0 <= b < 256) bs ->
    let hw' := exec_calls St7789.display
                 ([CallFrameStart] ++ map CallSendByte bs ++ [CallFrameDone]) hw in
    st_seen hw' =
      st_seen hw ++
      [st_cmd 0x2A; st_dat 0; st_dat 0; st_dat 0; st_dat 239;
       st_cmd 0x2B; st_dat 0; st_dat 80; st_dat 1; st_dat 63;
       st_cmd 0x2C] ++
      map st_dat (flat_map pixel_bytes bs) /\
    st_cs hw' = true /\
    List.length (flat_map pixel_bytes bs) = (16 * List.length bs)%nat /\
    (sizeof bs = St7789.X_RES * St7789.Y_RES / 8 ->
     Z.of_nat (List.length (flat_map pixel_bytes bs)) = 2 * st7789_window_pixels).
Proof.
  intros hw bs Hbs hw'. unfold hw'. rewrite !exec_calls_app.
  change (exec_calls St7789.display [CallFrameStart] hw)
    with (St7789.st7789_frame_start hw).
  destruct (st7789_frame_start_seen hw) as (Hs1 & Hc1 & Hd1). cbv zeta in *.
  destruct (st7789_send_bytes_seen bs _ Hc1 Hd1) as (Hs2 & Hc2 & Hd2).
  cbv zeta in *.
  set (h2 := exec_calls St7789.display (map CallSendByte bs)
               (St7789.st7789_frame_start hw)) in *.
  change (exec_calls St7789.display [CallFrameDone] h2)
    with (St7789.lcd_spi_disable h2).
  autorewrite with st7789. rewrite Hs2, Hs1.
  assert (Hpix : flat_map (fun b => pixel_bytes (u8 b)) bs = flat_map pixel_bytes bs).
  { apply flat_map_ext_in. eapply Forall_impl; [|exact Hbs].
    cbv beta. intros b Hb. rewrite u8_small by exact Hb. reflexivity. }
  rewrite Hpix, <- app_assoc.
  assert (Hlen : List.length (flat_map pixel_bytes bs) = (16 * List.length bs)%nat)
    by (apply flat_map_length_const, pixel_bytes_length).
  repeat split; [exact Hlen|].
  intros Hfull. rewrite Hlen. unfold sizeof in Hfull.
  rewrite Nat2Z.inj_mul, Hfull. reflexivity.
Qed.

Lemma st7789_frame_reaches_panel_witness :
  st_seen (exec_calls St7789.display
     ([CallFrameStart] ++ map CallSendByte [0x01] ++ [CallFrameDone])
     {| DDRB := 0; PORTB := 0; SPCR := 0; SPSR := 0; SPDR := 0; wire := [] |})
  = [st_cmd 0x2A; st_dat 0; st_dat 0; st_dat 0; st_dat 239;
     st_cmd 0x2B; st_dat 0; st_dat 80; st_dat 1; st_dat 63;
     st_cmd 0x2C]
    ++ map st_dat [255; 255; 0; 0; 0; 0; 0; 0; 0; 0; 0; 0; 0; 0; 0; 0].
Proof.
  apply (st7789_frame_reaches_panel
           {| DDRB := 0; PORTB := 0; SPCR := 0; SPSR := 0; SPDR := 0; wire := [] |}
           [0x01]).
  repeat constructor; lia.
Defined.

Lemma st_seen_setup hw :
  st_seen (St7789.st7789_reset (St7789.spi_init (St7789.port_setup hw))) = st_seen hw.
Proof. reflexivity. Qed.

Lemma splash_steps_are_sends (rows cols : list Z) :
  flat_map (fun row : Z =>
    flat_map (fun col => [St7789.spi_send_byte 0; St7789.spi_send_byte col]) cols) rows =
  map St7789.spi_send_byte
    (flat_map (fun row : Z => flat_map (fun col => [0; col]) cols) rows).
Proof.
  induction rows as [|r rows IH]; [reflexivity|].
  cbn [flat_map]. rewrite map_app, IH. f_equal.
  clear. induction cols as [|c cols IH]; [reflexivity|].
  cbn [flat_map map app]. rewrite IH. reflexivity.
Qed.

Lemma upto_range n : Forall (fun i => 0 <= i < n) (St7789.upto n).
Proof.
  unfold St7789.upto. apply Forall_forall. intros i Hi.
  apply in_map_iff in Hi as (k & <- & Hk). apply in_seq in Hk. lia.
Qed.

Lemma splash_bytes_range : Forall (fun b => 0 <= b < 256) st7789_splash_bytes.
Proof.
  unfold st7789_splash_bytes. apply Forall_forall. intros b Hb.
  apply in_flat_map in Hb as (row & _ & Hb).
  apply in_flat_map in Hb as (col & Hcol & Hb).
  pose proof (upto_range St7789.X_RES) as Hr.
  rewrite Forall_forall in Hr. specialize (Hr col Hcol). unfold St7789.X_RES in Hr.
  destruct Hb as [<-|[<-|[]]]; lia.
Qed.

Lemma upto_length n : 0 <= n -> Z.of_nat (List.length (St7789.upto n)) = n.
Proof.
  intros Hn. unfold St7789.upto. rewrite length_map, length_seq. lia.
Qed.

Lemma splash_bytes_length :
  Z.of_nat (List.length st7789_splash_bytes) = 2 * St7789.X_RES * St7789.Y_RES.
Proof.
  unfold st7789_splash_bytes.
  rewrite (flat_map_length_const _ (2 * List.length (St7789.upto St7789.X_RES))).
  - rewrite !Nat2Z.inj_mul, !upto_length by (cbv; discriminate). reflexivity.
  - intros row. apply flat_map_length_const. reflexivity.
Qed.

(** X15: from any register contents, st7789_init puts on the wire its
    configuration commands with their parameters, then exactly what
    frame_start sends, then the splash screen as data, two bytes per pixel
    (a zero and the column number) for Y_RES rows of X_RES columns, which is
    two bytes for every pixel of the addressed window, and last the DISPON
    command; chip select is low for all of it and high at the end. *)
Theorem st7789_init_result :
  forall hw : avr,
    let hw' := St7789.st7789_init hw in
    st_seen hw' =
      st_seen hw ++
      [st_cmd 0x01; st_cmd 0x11; st_cmd 0x3A; st_dat 0x55;
       st_cmd 0x36; st_dat 0x08;
       st_cmd 0x2A; st_dat 0; st_dat 0; st_dat 0; st_dat 240;
       st_cmd 0x2B; st_dat 0; st_dat 0; st_dat 1; st_dat 64;
       st_cmd 0x21; st_cmd 0x13; st_cmd 0x36; st_dat 0xc0] ++
      [st_cmd 0x2A; st_dat 0; st_dat 0; st_dat 0; st_dat 239;
       st_cmd 0x2B; st_dat 0; st_dat 80; st_dat 1; st_dat 63;
       st_cmd 0x2C] ++
      map st_dat st7789_splash_bytes ++
      [st_cmd 0x29] /\
    st_cs hw' = true /\
    Z.of_nat (List.length st7789_splash_bytes) = 2 * st7789_window_pixels.
Proof.
  intros hw hw'.
  assert (Hcons : forall f l h, steps (f :: l) h = steps l (f h)) by reflexivity.
  unfold hw', St7789.st7789_init. cbn [app].
  rewrite !Hcons.
  match goal with |- context [St7789.st7789_frame_start ?h] => set (h0 := h) end.
  destruct (st7789_frame_start_seen h0) as (Hs1 & Hc1 & Hd1). cbv zeta in *.
  set (h1 := St7789.st7789_frame_start h0) in *.
  rewrite steps_app.
  unfold St7789.splash_steps. rewrite splash_steps_are_sends.
  fold st7789_splash_bytes.
  destruct (st_send_run st7789_splash_bytes h1) as (Hs2 & Hc2 & Hd2).
  cbv zeta in *.
  set (h2 := steps (map St7789.spi_send_byte st7789_splash_bytes) h1) in *.
  rewrite !Hcons. unfold steps at 1 2. cbn [fold_left].
  autorewrite with st7789.
  rewrite Hs2, Hc2, Hs1, Hc1, Hd1.
  assert (Hmap : map (fun b => (false, true, u8 b)) st7789_splash_bytes =
                 map st_dat st7789_splash_bytes).
  { rewrite <- (map_u8_bytes _ splash_bytes_range) at 2.
    rewrite map_map. reflexivity. }
  rewrite Hmap.
  split; [|split; [reflexivity|apply splash_bytes_length]].
  unfold h0. autorewrite with st7789. rewrite st_seen_setup.
  rewrite <- !app_assoc. reflexivity.
Qed.

(** * Properties of ssd1306.c *)

Lemma twi_send_byte_ops b hw :
  Ssd1306.ops (Ssd1306.twi_send_byte b hw) = Ssd1306.ops hw ++ [Ssd1306.Send (u8 b)] /\
  Ssd1306.starts (Ssd1306.twi_send_byte b hw) = Ssd1306.starts hw /\
  Ssd1306.start_status (Ssd1306.twi_send_byte b hw) = Ssd1306.start_status hw /\
  Ssd1306.TWBR (Ssd1306.twi_send_byte b hw) = Ssd1306.TWBR hw.
Proof. repeat split. Qed.

Lemma twi_stop_ops hw :
  Ssd1306.ops (Ssd1306.twi_stop hw) = Ssd1306.ops hw ++ [Ssd1306.Stop] /\
  Ssd1306.starts (Ssd1306.twi_stop hw) = Ssd1306.starts hw /\
  Ssd1306.start_status (Ssd1306.twi_stop hw) = Ssd1306.start_status hw /\
  Ssd1306.TWBR (Ssd1306.twi_stop hw) = Ssd1306.TWBR hw.
Proof. repeat split. Qed.

Lemma twi_init_keeps hw :
  Ssd1306.ops (Ssd1306.twi_init hw) = Ssd1306.ops hw /\
  Ssd1306.starts (Ssd1306.twi_init hw) = Ssd1306.starts hw /\
  Ssd1306.start_status (Ssd1306.twi_init hw) = Ssd1306.start_status hw /\
  Ssd1306.TWBR (Ssd1306.twi_init hw) = 7.
Proof. repeat split. Qed.

Lemma twi_start_spec hw :
  let ok := start_ok hw (Ssd1306.starts hw) in
  fst (Ssd1306.twi_start hw) = (if ok then 0 else 1) /\
  Ssd1306.ops (snd (Ssd1306.twi_start hw)) =
    Ssd1306.ops hw ++ [Ssd1306.Start] ++ address_if ok /\
  Ssd1306.starts (snd (Ssd1306.twi_start hw)) = S (Ssd1306.starts hw) /\
  Ssd1306.start_status (snd (Ssd1306.twi_start hw)) = Ssd1306.start_status hw.
Proof.
  cbv zeta. unfold Ssd1306.twi_start, start_ok.
  unfold Ssd1306.twi_steps, Ssd1306.wait_TWINT. cbn [fold_left].
  change (Ssd1306.set_TWCR _ hw) with
    {| Ssd1306.TWSR := u8 (Ssd1306.start_status hw (Ssd1306.starts hw));
       Ssd1306.TWBR := Ssd1306.TWBR hw; Ssd1306.TWCR := 164;
       Ssd1306.TWDR := Ssd1306.TWDR hw;
       Ssd1306.ops := Ssd1306.ops hw ++ [Ssd1306.Start];
       Ssd1306.starts := S (Ssd1306.starts hw);
       Ssd1306.start_status := Ssd1306.start_status hw |}.
  cbn [Ssd1306.TWSR].
  destruct (Z.land (u8 (Ssd1306.start_status hw (Ssd1306.starts hw))) 248
            =? Ssd1306.TW_START).
  - cbn [negb fst snd address_if]. repeat split.
    cbn. rewrite <- app_assoc. reflexivity.
  - cbn [negb fst snd address_if Ssd1306.ops Ssd1306.starts Ssd1306.start_status].
    rewrite app_nil_r. repeat split.
Qed.

(** X16: twi_start returns 0 and sends the display's address byte 0x78
    after the START when the status in TWSR, masked with 0xf8, is TW_START;
    with any other status it returns 1 and sends nothing after the START.
    Either way exactly one START is asked for. *)
Theorem twi_start_reports_failed_start :
  forall (hw : Ssd1306.twi) (status : Z),
    Ssd1306.start_status hw (Ssd1306.starts hw) = status ->
    let r := Ssd1306.twi_start hw in
    (Z.land (u8 status) 0xf8 = Ssd1306.TW_START ->
     fst r = 0 /\
     Ssd1306.ops (snd r) = Ssd1306.ops hw ++ [Ssd1306.Start; Ssd1306.Send 0x78]) /\
    (Z.land (u8 status) 0xf8 <> Ssd1306.TW_START ->
     fst r = 1 /\
     Ssd1306.ops (snd r) = Ssd1306.ops hw ++ [Ssd1306.Start]) /\
    Ssd1306.starts (snd r) = S (Ssd1306.starts hw).
Proof.
  intros hw status Hst r. unfold r.
  destruct (twi_start_spec hw) as (Hv & Ho & Hs & _). cbv zeta in *.
  unfold start_ok in *. rewrite Hst in *.
  rewrite Hv, Ho. split; [|split; [|exact Hs]].
  - intros H. apply Z.eqb_eq in H. rewrite H. split; reflexivity.
  - intros H. apply Z.eqb_neq in H. rewrite H. split; reflexivity.
Qed.

Lemma twi_start_reports_failed_start_witness :
  let idle := {| Ssd1306.TWSR := 0; Ssd1306.TWBR := 7; Ssd1306.TWCR := 0;
                 Ssd1306.TWDR := 0; Ssd1306.ops := []; Ssd1306.starts := 0;
                 Ssd1306.start_status := fun k => if Nat.eqb k 0 then 0x08 else 0x00 |} in
  fst (Ssd1306.twi_start idle) = 0 /\
  fst (Ssd1306.twi_start (snd (Ssd1306.twi_start idle))) = 1.
Proof.
  intros idle. split.
  - apply (twi_start_reports_failed_start idle 0x08 eq_refl). reflexivity.
  - apply (twi_start_reports_failed_start (snd (Ssd1306.twi_start idle)) 0x00 eq_refl).
    discriminate.
Defined.

Lemma twi_start_keeps hw :
  Ssd1306.ops (Ssd1306.twi_start_ hw) =
    Ssd1306.ops hw ++ [Ssd1306.Start]
      ++ address_if (start_ok hw (Ssd1306.starts hw)) /\
  Ssd1306.starts (Ssd1306.twi_start_ hw) = S (Ssd1306.starts hw) /\
  Ssd1306.start_status (Ssd1306.twi_start_ hw) = Ssd1306.start_status hw /\
  Ssd1306.TWBR (Ssd1306.twi_start_ hw) = Ssd1306.TWBR hw.
Proof.
  destruct (twi_start_spec hw) as (_ & Ho & Hs & Hst). cbv zeta in *.
  unfold Ssd1306.twi_start_. split; [exact Ho|]. split; [exact Hs|].
  split; [exact Hst|].
  unfold Ssd1306.twi_start, Ssd1306.twi_steps, Ssd1306.wait_TWINT. cbn [fold_left].
  destruct (negb _); reflexivity.
Qed.

Lemma twi_send_run bs : forall hw,
  let hw' := Ssd1306.twi_steps (map Ssd1306.twi_send_byte bs) hw in
  Ssd1306.ops hw' = Ssd1306.ops hw ++ map (fun b => Ssd1306.Send (u8 b)) bs /\
  Ssd1306.starts hw' = Ssd1306.starts hw /\
  Ssd1306.start_status hw' = Ssd1306.start_status hw /\
  Ssd1306.TWBR hw' = Ssd1306.TWBR hw.
Proof.
  induction bs as [|b bs IH]; intros hw.
  - cbn. rewrite app_nil_r. auto.
  - cbn [map]. unfold Ssd1306.twi_steps in *. cbn [fold_left].
    destruct (IH (Ssd1306.twi_send_byte b hw)) as (Ho & Hs & Hst & Hb).
    cbv zeta. rewrite Ho, Hs, Hst, Hb.
    destruct (twi_send_byte_ops b hw) as (-> & -> & -> & ->).
    rewrite <- app_assoc. auto.
Qed.

Lemma twi_steps_app l1 l2 hw :
  Ssd1306.twi_steps (l1 ++ l2) hw = Ssd1306.twi_steps l2 (Ssd1306.twi_steps l1 hw).
Proof. unfold Ssd1306.twi_steps. apply fold_left_app. Qed.

Lemma ssd1306_init_send_ops hw :
  let k := Ssd1306.starts hw in
  let hw' := Ssd1306.ssd1306_init_send hw in
  Ssd1306.ops hw' =
    Ssd1306.ops hw ++ [Ssd1306.Start] ++ address_if (start_ok hw k)
      ++ [Ssd1306.Send 0x00; Ssd1306.Send 0xb0; Ssd1306.Send 0x21;
          Ssd1306.Send 0x00; Ssd1306.Send 0x7f; Ssd1306.Stop; Ssd1306.Start]
      ++ address_if (start_ok hw (S k)) ++ [Ssd1306.Send 0x40] /\
  Ssd1306.starts hw' = S (S k) /\
  Ssd1306.start_status hw' = Ssd1306.start_status hw /\
  Ssd1306.TWBR hw' = Ssd1306.TWBR hw.
Proof.
  cbv zeta.
  change (Ssd1306.ssd1306_init_send hw) with
    (Ssd1306.twi_send_byte 0x40 (Ssd1306.twi_start_
      (Ssd1306.twi_stop (Ssd1306.twi_steps
        (map Ssd1306.twi_send_byte [0x00; 0xb0; 0x21; 0x00; 0x7f])
        (Ssd1306.twi_start_ hw))))).
  destruct (twi_start_keeps hw) as (Ho1 & Hs1 & Hst1 & Hb1).
  set (h1 := Ssd1306.twi_start_ hw) in *.
  destruct (twi_send_run [0x00; 0xb0; 0x21; 0x00; 0x7f] h1) as (Ho & Hs & Hst & Hb).
  cbv zeta in Ho, Hs, Hst, Hb.
  set (h1' := Ssd1306.twi_steps _ h1) in *.
  destruct (twi_stop_ops h1') as (Hop & Hsp & Hstp & Hbp).
  set (h2 := Ssd1306.twi_stop h1') in *.
  destruct (twi_start_keeps h2) as (Ho2 & Hs2 & Hst2 & Hb2).
  assert (Hok : start_ok h2 (Ssd1306.starts h2) = start_ok hw (S (Ssd1306.starts hw))).
  { unfold start_ok. rewrite Hstp, Hsp, Hst, Hs, Hst1, Hs1. reflexivity. }
  set (h3 := Ssd1306.twi_start_ h2) in *.
  destruct (twi_send_byte_ops 64 h3) as (-> & -> & -> & ->).
  rewrite Ho2, Hs2, Hst2, Hb2, Hok, Hop, Hsp, Hstp, Hbp, Ho, Hs, Hst, Hb,
    Ho1, Hs1, Hst1, Hb1.
  repeat split. cbn [map]. rewrite <- !app_assoc. reflexivity.
Qed.

Lemma ssd1306_send_bytes splash bs hw :
  exec_calls (Ssd1306.display splash) (map CallSendByte bs) hw =
  Ssd1306.twi_steps (map Ssd1306.twi_send_byte bs) hw.
Proof.
  revert hw. induction bs as [|b bs IH]; intros hw; [reflexivity|].
  cbn [map]. unfold exec_calls, Ssd1306.twi_steps in *. cbn [fold_left]. apply IH.
Qed.

(** X17: on the SSD1306, frame_start, one send_byte per frame byte and
    frame_done ask the TWI unit for a START, the five addressing bytes, a
    STOP, a second START, the data-mode byte 0x40, the frame bytes unchanged
    and in order, and a STOP.  The result of twi_start is not looked at:
    after a START that is not reported as sent only the address byte 0x78 is
    missing, the bytes that follow are sent all the same. *)
Theorem ssd1306_frame_operations :
  forall (splash : nat -> Z) (hw : Ssd1306.twi) (bs : list Z),
    Forall (fun b => 0 <= b < 256) bs ->
    let k := Ssd1306.starts hw in
    let hw' := exec_calls (Ssd1306.display splash)
                 ([CallFrameStart] ++ map CallSendByte bs ++ [CallFrameDone]) hw in
    Ssd1306.ops hw' =
      Ssd1306.ops hw ++ [Ssd1306.Start] ++ address_if (start_ok hw k)
        ++ [Ssd1306.Send 0x00; Ssd1306.Send 0xb0; Ssd1306.Send 0x21;
            Ssd1306.Send 0x00; Ssd1306.Send 0x7f; Ssd1306.Stop; Ssd1306.Start]
        ++ address_if (start_ok hw (S k)) ++ [Ssd1306.Send 0x40]
        ++ map Ssd1306.Send bs ++ [Ssd1306.Stop] /\
    Ssd1306.starts hw' = S (S k).
Proof.
  intros splash hw bs Hbs k hw'. unfold hw'. rewrite !exec_calls_app.
  change (exec_calls (Ssd1306.display splash) [CallFrameStart] hw)
    with (Ssd1306.ssd1306_init_send hw).
  destruct (ssd1306_init_send_ops hw) as (Ho1 & Hs1 & _). cbv zeta in *.
  set (h1 := Ssd1306.ssd1306_init_send hw) in *.
  rewrite ssd1306_send_bytes.
  destruct (twi_send_run bs h1) as (Ho2 & Hs2 & _). cbv zeta in *.
  set (h2 := Ssd1306.twi_steps (map Ssd1306.twi_send_byte bs) h1) in *.
  change (exec_calls (Ssd1306.display splash) [CallFrameDone] h2)
    with (Ssd1306.twi_stop h2).
  destruct (twi_stop_ops h2) as (-> & -> & _).
  rewrite Ho2, Hs2, Ho1, Hs1. split; [|reflexivity].
  rewrite <- (map_u8_bytes bs Hbs) at 2. rewrite map_map.
  rewrite <- !app_assoc. reflexivity.
Qed.

Lemma ssd1306_frame_operations_witness :
  let idle := {| Ssd1306.TWSR := 0; Ssd1306.TWBR := 7; Ssd1306.TWCR := 0;
                 Ssd1306.TWDR := 0; Ssd1306.ops := []; Ssd1306.starts := 0;
                 Ssd1306.start_status := fun k => if Nat.eqb k 0 then 0x08 else 0x00 |} in
  Ssd1306.ops (exec_calls (Ssd1306.display (fun _ => 0))
     ([CallFrameStart] ++ map CallSendByte [1; 2] ++ [CallFrameDone]) idle) =
  [Ssd1306.Start; Ssd1306.Send 0x78;
   Ssd1306.Send 0x00; Ssd1306.Send 0xb0; Ssd1306.Send 0x21;
   Ssd1306.Send 0x00; Ssd1306.Send 0x7f; Ssd1306.Stop; Ssd1306.Start;
   Ssd1306.Send 0x40; Ssd1306.Send 1; Ssd1306.Send 2; Ssd1306.Stop].
Proof.
  intros idle.
  apply (ssd1306_frame_operations (fun _ => 0) idle [1; 2]).
  repeat constructor; lia.
Defined.

(** X18: ssd1306_init is its configuration part followed by what the
    display's own frame_start, one send_byte for each of the
    X_RES * Y_RES / 8 splash bytes, and frame_done do.  The configuration
    part sets the bit rate register to 7, which gives F_SCL from F_CPU, and
    asks for a START, the command-mode byte, the 28 bytes of init_sequence
    and a STOP. *)
Theorem ssd1306_init_result :
  forall (splash : nat -> Z) (hw : Ssd1306.twi),
    Ssd1306.ssd1306_init splash hw =
      exec_calls (Ssd1306.display splash)
        ([CallFrameStart] ++ map CallSendByte (Ssd1306.splash_frame splash)
           ++ [CallFrameDone])
        (ssd1306_configure hw) /\
    sizeof (Ssd1306.splash_frame splash) = Ssd1306.X_RES * Ssd1306.Y_RES / 8 /\
    Ssd1306.ops (ssd1306_configure hw) =
      Ssd1306.ops hw ++ [Ssd1306.Start]
        ++ address_if (start_ok hw (Ssd1306.starts hw))
        ++ [Ssd1306.Send 0x00] ++ map Ssd1306.Send Ssd1306.init_sequence
        ++ [Ssd1306.Stop] /\
    List.length Ssd1306.init_sequence = 28%nat /\
    Ssd1306.TWBR (ssd1306_configure hw) = 7 /\
    Ssd1306.F_CPU / (16 + 2 * Ssd1306.TWBR (ssd1306_configure hw)) = Ssd1306.F_SCL.
Proof.
  intros splash hw.
  assert (Hcfg : Ssd1306.ops (ssd1306_configure hw) =
                   Ssd1306.ops hw ++ [Ssd1306.Start]
                     ++ address_if (start_ok hw (Ssd1306.starts hw))
                     ++ [Ssd1306.Send 0x00] ++ map Ssd1306.Send Ssd1306.init_sequence
                     ++ [Ssd1306.Stop] /\
                 Ssd1306.TWBR (ssd1306_configure hw) = 7).
  { assert (Hshape : ssd1306_configure hw =
              Ssd1306.twi_stop (Ssd1306.twi_steps
                (map Ssd1306.twi_send_byte Ssd1306.init_sequence)
                (Ssd1306.twi_send_byte 0 (Ssd1306.twi_start_ (Ssd1306.twi_init hw))))).
    { unfold ssd1306_configure. rewrite !twi_steps_app. reflexivity. }
    rewrite Hshape. clear Hshape.
    destruct (twi_init_keeps hw) as (Hoi & Hsi & Hsti & Hbi).
    set (hi := Ssd1306.twi_init hw) in *.
    destruct (twi_start_keeps hi) as (Ho0 & _ & _ & Hb0).
    set (hs := Ssd1306.twi_start_ hi) in *.
    destruct (twi_send_byte_ops 0 hs) as (Hoc & _ & _ & Hbc).
    set (hc := Ssd1306.twi_send_byte 0 hs) in *.
    destruct (twi_send_run Ssd1306.init_sequence hc) as (Ho & _ & _ & Hb).
    cbv zeta in Ho, Hb.
    set (h1 := Ssd1306.twi_steps (map Ssd1306.twi_send_byte Ssd1306.init_sequence) hc) in *.
    destruct (twi_stop_ops h1) as (-> & _ & _ & ->).
    rewrite Ho, Hb, Hoc, Hbc, Ho0, Hb0, Hoi, Hbi.
    unfold start_ok. rewrite Hsti, Hsi. fold (start_ok hw (Ssd1306.starts hw)).
    split; [|reflexivity].
    rewrite <- !app_assoc. reflexivity. }
  destruct Hcfg as [Hops Htwbr].
  split; [|split; [|split; [exact Hops|split; [reflexivity|split; [exact Htwbr|]]]]].
  - unfold Ssd1306.ssd1306_init, ssd1306_configure.
    rewrite !exec_calls_app, ssd1306_send_bytes.
    rewrite !app_assoc. rewrite 3!twi_steps_app. reflexivity.
  - unfold Ssd1306.splash_frame, sizeof. rewrite length_map, length_seq. reflexivity.
  - rewrite Htwbr. reflexivity.
Qed.
